(** * The zenoh plug-in of the pluggable transport: default_implementation.cpp

    A shallow embedding of [plugin_proposal/lib/src/default_implementation.cpp]:
    the session, publisher, subscriber, RPC client and RPC server classes that
    sit between the user's callbacks and the zenoh-c backend.

    C++ code with side effects is written in a state-and-exception monad.  The
    state holds the object a member function runs on ([this]) and the
    chronological list of calls made to the outside (backend calls, user
    callbacks, lines on standard output).  What the backend answers is an
    input of the model: a record of answer functions, each of which may depend
    on everything that happened before the call. *)

From stdpp Require Import base strings list gmap pretty.
From Stdlib Require Import ZArith Lia.

Local Open Scope Z_scope.
Local Open Scope string_scope.
Local Open Scope list_scope.

(** ** Data of PluginApi.hpp and zenoh-c used by the source *)

(** [struct Message { std::string payload; std::string attributes; }] *)
Record Message := mkMessage { payload : string; attributes : string }.

(** A default-constructed [Message]. *)
Definition Message_default : Message := mkMessage "" "".

(** [z_bytes_t {len, start}]: [None] is the null slice ([start == NULL]). *)
Definition z_bytes_t := option string.
Definition z_bytes_null : z_bytes_t := None.

(** [z_owned_bytes_map_t] is a map from byte strings to byte strings, written
    [gmap string string] below.  [z_attachment_t] is a view on such a map, or
    the null attachment. *)
Definition z_attachment_t := option (gmap string string).

(** [z_keyexpr_t]: a key expression, or the null key expression that
    [z_keyexpr] returns for a string that is not one. *)
Definition z_keyexpr_t := option string.

(** Handles are numbered by the backend. *)
Record z_session := mk_session { session_id : nat }.
Definition z_owned_publisher_t := option nat.
Definition z_owned_queryable_t := option nat.

(** [z_sample_t], as far as the source reads it. *)
Record z_sample_t := mk_sample {
  sample_keyexpr : string;
  sample_payload : z_bytes_t;
  sample_attachment : z_attachment_t
}.

(** A reply that passes [z_check]: either a sample or an error value. *)
Inductive z_reply_data :=
| reply_sample (s : z_sample_t)
| reply_error (value : string).

(** [z_owned_reply_t]: [None] is [z_reply_null()], which fails [z_check]. *)
Definition z_owned_reply_t := option z_reply_data.

(** [z_query_t], as far as the source reads it.  [query_id] names the backend
    query object, which [z_query_clone] shares. *)
Record z_query_t := mk_query {
  query_id : nat;
  query_keyexpr : string;
  query_value : z_bytes_t;
  query_attachment : z_attachment_t
}.

(** [z_owned_query_t]: an owned reference to a backend query. *)
Record z_owned_query_t := mk_owned_query { owned : z_query_t }.

(** [std::variant<T, zenohc::ErrorMessage>] *)
Inductive variant (T : Type) :=
| value (x : T)
| error_message (msg : string).
Arguments value {T} x.
Arguments error_message {T} msg.

(** ** Exceptions and observable events *)

Inductive exception :=
| runtime_error (what : string)
| ErrorMessage (msg : string)
| user_exception (what : string).

Inductive Event :=
| EvOpen
| EvDeclarePublisher (s : z_session) (k : z_keyexpr_t)
| EvUndeclarePublisher (h : z_owned_publisher_t)
| EvPublisherPut (h : z_owned_publisher_t) (data : string) (att : z_attachment_t)
| EvBytesMapDrop (m : gmap string string)
| EvDeclareSubscriber (s : z_session) (topic : string)
| EvGet (s : z_session) (k : z_keyexpr_t) (params : string) (data : z_bytes_t)
        (att : z_attachment_t) (timeout_ms : Z)
| EvRecv (r : z_owned_reply_t)
| EvReplyDrop (r : z_owned_reply_t)
| EvChannelDrop
| EvDeclareQueryable (s : z_session) (k : z_keyexpr_t)
| EvUndeclareQueryable (h : z_owned_queryable_t)
| EvQueryClone (q : z_query_t)
| EvQueryReply (q : z_owned_query_t) (k : z_keyexpr_t) (data : string)
               (att : z_attachment_t)
| EvQueryDrop (q : z_owned_query_t)
| EvThreadPool (thread_count : nat)
| EvThreadPoolJoin
| EvUndeclareSubscriber (h : nat)
| EvSubscriberCallback (sending_topic listening_topic : string) (m : Message)
| EvRpcCallback (keyexpr : string) (m : Message)
| EvCout (line : string).

(** What the backend answers.  Every answer may depend on the history. *)
Record Backend := mk_backend {
  keyexpr_is_valid : string -> bool;
  open_answer : list Event -> variant z_session;
  declare_publisher_answer :
    list Event -> z_session -> z_keyexpr_t -> z_owned_publisher_t;
  publisher_put_answer :
    list Event -> z_owned_publisher_t -> string -> z_attachment_t -> Z;
  declare_subscriber_answer :
    list Event -> z_session -> string -> variant nat;
  get_answer :
    list Event -> z_session -> z_keyexpr_t -> z_bytes_t -> z_attachment_t ->
    Z -> list z_reply_data;
  declare_queryable_answer :
    list Event -> z_session -> z_keyexpr_t -> z_owned_queryable_t;
  query_reply_answer :
    list Event -> z_owned_query_t -> z_keyexpr_t -> string -> z_attachment_t -> Z
}.

(** ** The monad *)

Inductive Result (A : Type) :=
| Ok (a : A)
| Throw (e : exception).
Arguments Ok {A} a.
Arguments Throw {A} e.

Record State (T : Type) := mk_state { this : T; trace : list Event }.
Arguments mk_state {T} this trace.
Arguments this {T} s.
Arguments trace {T} s.

Definition M (T A : Type) := State T -> Result A * State T.

Definition ret {T A} (a : A) : M T A := fun s => (Ok a, s).

Definition bind {T A B} (m : M T A) (k : A -> M T B) : M T B :=
  fun s => match m s with
           | (Ok a, s') => k a s'
           | (Throw e, s') => (Throw e, s')
           end.

Definition throw {T A} (e : exception) : M T A := fun s => (Throw e, s).

Declare Scope cpp_scope.
Delimit Scope cpp_scope with cpp.
Notation "x <- m ;; k" := (bind m (fun x => k))
  (at level 100, m at next level, right associativity) : cpp_scope.
Notation "m ;; k" := (bind m (fun _ => k))
  (at level 100, right associativity) : cpp_scope.
Local Open Scope cpp_scope.

(** A call to the outside: the answer is computed from the history, then the
    call is recorded. *)
Definition outside {T R} (answer : list Event -> R) (ev : R -> Event) : M T R :=
  fun s => let r := answer (trace s) in
           (Ok r, mk_state (this s) (trace s ++ [ev r])).

Definition emit {T} (ev : Event) : M T unit :=
  outside (fun _ => tt) (fun _ => ev).

Definition get_this {T} : M T T := fun s => (Ok (this s), s).

Definition modify_this {T} (f : T -> T) : M T unit :=
  fun s => (Ok tt, mk_state (f (this s)) (trace s)).

(** Scope exit: [cleanup], the destructors of the locals, runs when [body] is
    left normally.  The source has no handler for any exception: one that
    leaves [body] goes on to leave the thread's function with no handler
    found, the stack is not unwound and [cleanup] does not run. *)
Definition scoped {T A} (body : M T A) (cleanup : M T unit) : M T A :=
  fun s => match body s with
           | (Ok a, s') => match cleanup s' with
                           | (Ok _, s'') => (Ok a, s'')
                           | (Throw e, s'') => (Throw e, s'')
                           end
           | (Throw e, s') => (Throw e, s')
           end.

(** Loops.  The body says whether the loop goes round again, with the new
    values of the locals, or is left.  [None] means the fuel ran out. *)
Inductive ctl (L R : Type) :=
| next (l : L)
| leave (r : R).
Arguments next {L R} l.
Arguments leave {L R} r.

Fixpoint loop {T L R} (fuel : nat) (body : L -> M T (ctl L R)) (l : L)
  : M T (option R) :=
  match fuel with
  | O => ret None
  | S fuel' =>
      c <- body l ;;
      match c with
      | next l' => loop fuel' body l'
      | leave r => ret (Some r)
      end
  end.

(** ** Small helpers of the source *)

(** [std::string::c_str()] read back as a C string, and [std::string(const
    char* )]: the characters before the first NUL. *)
Fixpoint c_str (s : string) : string :=
  match s with
  | EmptyString => EmptyString
  | String c rest =>
      if Ascii.eqb c Ascii.zero then EmptyString else String c (c_str rest)
  end.

(** [z_check] on a handle, key expression, attachment or reply. *)
Definition z_check {A} (h : option A) : bool :=
  match h with Some _ => true | None => false end.

(** [zenohc::expect<T>]: the value, or throws the error message. *)
Definition expect {T A} (v : variant A) : M T A :=
  match v with
  | value x => ret x
  | error_message msg => throw (ErrorMessage msg)
  end.

(** [static std::string keyexpr2string(const z_keyexpr_t&)].  The null key
    expression does not occur in a delivered sample or query. *)
Definition keyexpr2string (keyexpr : z_keyexpr_t) : string :=
  match keyexpr with
  | Some k => c_str k
  | None => ""
  end.

(** [static string extract(const z_bytes_t&)] *)
Definition extract (b : z_bytes_t) : string :=
  match b with
  | Some bytes => bytes
  | None => ""
  end.

(** [static z_bytes_t pack(const string_view&)] *)
Definition pack (od : string) : z_bytes_t := Some od.

(** zenoh-c: [z_bytes_map_new], [z_bytes_map_insert_by_alias],
    [z_bytes_map_as_attachment], [z_attachment_get]. *)
Definition z_bytes_map_new : gmap string string := ∅.

Definition z_bytes_map_insert_by_alias
  (key : string) (v : z_bytes_t) (m : gmap string string) : gmap string string :=
  <[key := extract v]> m.

Definition z_bytes_map_as_attachment (m : gmap string string) : z_attachment_t :=
  Some m.

Definition z_attachment_get (a : z_attachment_t) (key : string) : z_bytes_t :=
  match a with
  | Some m => m !! key
  | None => z_bytes_null
  end.

(** ** Fifo and ThreadPool (Utils.hpp) *)

Module Fifo.

(** Modelled from the spec: [Fifo<T>] of Utils.hpp is not among the sources.
    Section 4.1 describes it: [push] enqueues; [pull] blocks until an item is
    available or the queue has been shut down and returns the item or the
    end-of-stream indicator; after the shutdown ([exit] in the source) every
    [pull] returns end-of-stream without blocking. *)
Record t (T : Type) := mk { queue : list T; closed : bool }.
Arguments mk {T} queue closed.
Arguments queue {T} _.
Arguments closed {T} _.

(** What a [pull] does: hands out an item, returns [nullptr], or waits. *)
Inductive pulled (T : Type) :=
| item (p : T)
| nullptr
| waits.
Arguments item {T} p.
Arguments nullptr {T}.
Arguments waits {T}.

Definition empty {T} : t T := mk [] false.

Definition push {T} (p : T) (f : t T) : t T := mk (queue f ++ [p]) (closed f).

Definition pull {T} (f : t T) : pulled T * t T :=
  if closed f then (nullptr, f)
  else match queue f with
       | [] => (waits, f)
       | p :: rest => (item p, mk rest (closed f))
       end.

Definition exit {T} (f : t T) : t T := mk (queue f) true.

End Fifo.

(** Modelled from the spec: [ThreadPool] of Utils.hpp is not among the sources
    either.  Section 4.2: it starts [thread_count] threads that run the
    supplied function, and its destruction joins them.  The model records
    the two as [EvThreadPool] and [EvThreadPoolJoin]. *)

(** How a thread leaves its worker function in a run of the model: the
    function returned, or the thread is waiting inside [pull]. *)
Inductive worker_exit :=
| returned
| waiting.

Definition endl : string := String (Ascii.ascii_of_nat 10) EmptyString.

(** The line that the constructor of the RPC server prints. *)
Definition registering_line (keyexpr : string) (thread_count : nat) : string :=
  "registering RPC callback for " ++ keyexpr ++ " thread_count="
  ++ pretty thread_count ++ endl.

Section Transport.

Variable backend : Backend.

(** [z_keyexpr(const char* )] *)
Definition z_keyexpr (name : string) : z_keyexpr_t :=
  if keyexpr_is_valid backend name then Some name else None.

(** ** SessionImpl *)

Record SessionImpl := mk_SessionImpl {
  start_doc : string;
  session : z_session
}.

(** [static zenohc::Session inst()] *)
Definition inst {T} : M T z_session :=
  v <- outside (open_answer backend) (fun _ => EvOpen) ;;
  expect v.

Definition SessionImpl_ctor (start_doc : string) : M unit SessionImpl :=
  session <- inst ;;
  ret (mk_SessionImpl start_doc session).

(** ** PublisherImpl *)

Record PublisherImpl := mk_PublisherImpl {
  pub_session : SessionImpl;
  pub_sending_topic : string;
  pub_handle : z_owned_publisher_t
}.

Definition PublisherImpl_ctor (session_base : SessionImpl) (sending_topic : string)
  : M unit PublisherImpl :=
  let k := z_keyexpr (c_str sending_topic) in
  handle <- outside
              (fun h => declare_publisher_answer backend h (session session_base) k)
              (fun _ => EvDeclarePublisher (session session_base) k) ;;
  if negb (z_check handle)
  then throw (runtime_error "Cannot declare publisher")
  else ret (mk_PublisherImpl session_base sending_topic handle).

Definition PublisherImpl_dtor : M PublisherImpl unit :=
  self <- get_this ;;
  emit (EvUndeclarePublisher (pub_handle self)).

(** [void operator()(const Message& message)].  The attachment aliases [map],
    so the insertion made after taking it is seen by the put. *)
Definition PublisherImpl_call (message : Message) : M PublisherImpl unit :=
  self <- get_this ;;
  let map := z_bytes_map_new in
  let map := z_bytes_map_insert_by_alias "attributes"
               (Some (attributes message)) map in
  let attachment := z_bytes_map_as_attachment map in
  rc <- outside
          (fun h => publisher_put_answer backend h (pub_handle self)
                      (payload message) attachment)
          (fun _ => EvPublisherPut (pub_handle self) (payload message) attachment) ;;
  if negb (rc =? 0)%Z
  then emit (EvBytesMapDrop map) ;; throw (runtime_error "Cannot publish")
  else emit (EvBytesMapDrop map).

(** ** SubscriberImpl *)

Record SubInfo := mk_SubInfo {
  sending_topic : string;
  sub_message : Message
}.

(** [SubInfo(const zenohc::Sample& sample)] *)
Definition SubInfo_ctor (sample : z_sample_t) : SubInfo :=
  mk_SubInfo
    (sample_keyexpr sample)
    (mkMessage
       (extract (sample_payload sample))
       (extract (z_attachment_get (sample_attachment sample) "attributes"))).

(** A user callback is a function of its arguments and of the history; it
    returns or raises. *)
Definition SubscriberServerCallback :=
  list Event -> string -> string -> Message -> Result unit.

Record SubscriberImpl := mk_SubscriberImpl {
  sub_session : SessionImpl;
  sub_handle : nat;
  listening_topic : string;
  sub_fifo : Fifo.t SubInfo;
  sub_pool : nat;
  sub_callback : SubscriberServerCallback
}.

Definition set_sub_fifo (f : Fifo.t SubInfo) (self : SubscriberImpl) : SubscriberImpl :=
  mk_SubscriberImpl (sub_session self) (sub_handle self) (listening_topic self)
    f (sub_pool self) (sub_callback self).

(** Calls user code: the call is recorded, its result or exception is the
    callback's. *)
Definition user_call {T A} (answer : list Event -> Result A) (ev : Event) : M T A :=
  fun s => (answer (trace s), mk_state (this s) (trace s ++ [ev])).

(** [void handler(const zenohc::Sample& sample)] *)
Definition SubscriberImpl_handler (sample : z_sample_t) : M SubscriberImpl unit :=
  modify_this (fun self =>
    set_sub_fifo (Fifo.push (SubInfo_ctor sample) (sub_fifo self)) self).

(** One round of the [while (true)] of [void worker()]. *)
Definition SubscriberImpl_worker_body (_ : unit)
  : M SubscriberImpl (ctl unit worker_exit) :=
  self <- get_this ;;
  let (ptr, fifo') := Fifo.pull (sub_fifo self) in
  modify_this (set_sub_fifo fifo') ;;
  match ptr with
  | Fifo.waits => ret (leave waiting)
  | Fifo.nullptr => ret (leave returned)
  | Fifo.item p =>
      user_call
        (fun h => sub_callback self h (sending_topic p) (listening_topic self)
                    (sub_message p))
        (EvSubscriberCallback (sending_topic p) (listening_topic self)
           (sub_message p)) ;;
      ret (next tt)
  end.

(** [void worker()] *)
Definition SubscriberImpl_worker (fuel : nat) : M SubscriberImpl (option worker_exit) :=
  loop fuel SubscriberImpl_worker_body tt.

Definition SubscriberImpl_ctor (session_base : SessionImpl) (listening_topic : string)
  (callback : SubscriberServerCallback) (thread_count : nat)
  : M unit SubscriberImpl :=
  v <- outside
         (fun h => declare_subscriber_answer backend h (session session_base)
                     listening_topic)
         (fun _ => EvDeclareSubscriber (session session_base) listening_topic) ;;
  handle <- expect v ;;
  emit (EvThreadPool thread_count) ;;
  ret (mk_SubscriberImpl session_base handle listening_topic Fifo.empty
         thread_count callback).

(** [~SubscriberImpl()], followed by the destructors of [pool] and [handle]. *)
Definition SubscriberImpl_dtor : M SubscriberImpl unit :=
  modify_this (fun self => set_sub_fifo (Fifo.exit (sub_fifo self)) self) ;;
  emit EvThreadPoolJoin ;;
  self <- get_this ;;
  emit (EvUndeclareSubscriber (sub_handle self)).

(** ** RpcClientImpl *)

Record RpcClientImpl := mk_RpcClientImpl {
  rpc_session : SessionImpl;
  (** [z_owned_reply_channel_t channel]: the replies still to be received
      before the backend closes the channel. *)
  channel : list z_reply_data
}.

Definition RpcClientImpl_ctor (session_base : SessionImpl) (expr : string)
  (message : Message) (timeout : Z) : M unit RpcClientImpl :=
  let keyexpr := z_keyexpr (c_str expr) in
  if negb (z_check keyexpr)
  then throw (runtime_error "Not a valid key expression")
  else
    let data := pack (payload message) in
    let attrs := z_bytes_map_insert_by_alias "attributes"
                   (pack (attributes message)) z_bytes_map_new in
    let attachment := z_bytes_map_as_attachment attrs in
    (* seconds to milliseconds, stored in the unsigned 64-bit option field *)
    let timeout_ms := ((timeout * 1000) mod 2 ^ 64)%Z in
    replies <- outside
                 (fun h => get_answer backend h (session session_base) keyexpr
                             data attachment timeout_ms)
                 (fun _ => EvGet (session session_base) keyexpr "" data
                             attachment timeout_ms) ;;
    ret (mk_RpcClientImpl session_base replies).

Definition RpcClientImpl_dtor : M RpcClientImpl unit :=
  emit EvChannelDrop.

(** [z_call(channel.recv, &reply)]: the next reply, or the null reply once
    the channel is closed. *)
Definition channel_recv : M RpcClientImpl z_owned_reply_t :=
  self <- get_this ;;
  match channel self with
  | [] => emit (EvRecv None) ;; ret None
  | r :: rest =>
      modify_this (fun self => mk_RpcClientImpl (rpc_session self) rest) ;;
      emit (EvRecv (Some r)) ;;
      ret (Some r)
  end.

(** The [for] of [operator()]: its condition and its body, on the locals
    [results] and [reply].  The body always ends in [break] or [throw], so
    the increment of the [for] is never reached. *)
Definition RpcClientImpl_call_body (l : (string * Message) * z_owned_reply_t)
  : M RpcClientImpl
      (ctl ((string * Message) * z_owned_reply_t)
           ((string * Message) * z_owned_reply_t)) :=
  let '(results, reply) := l in
  if z_check reply then
    match reply with
    | Some (reply_sample sample) =>
        let src := keyexpr2string (Some (sample_keyexpr sample)) in
        let attr := z_attachment_get (sample_attachment sample) "attributes" in
        let results :=
          (src, mkMessage (extract (sample_payload sample)) (extract attr)) in
        ret (leave (results, reply))
    | _ => throw (runtime_error "RPC client timed out.")
    end
  else ret (leave (results, reply)).

(** [tuple<string, Message> operator()()] *)
Definition RpcClientImpl_call (fuel : nat)
  : M RpcClientImpl (option (string * Message)) :=
  let results := ("", Message_default) in
  reply <- channel_recv ;;
  out <- loop fuel RpcClientImpl_call_body (results, reply) ;;
  match out with
  | Some (results, reply) =>
      emit (EvReplyDrop reply) ;;
      ret (Some results)
  | None => ret None
  end.

(** ** RpcServerImpl *)

Record RpcInfo := mk_RpcInfo {
  keyexpr : string;
  rpc_message : Message;
  owned_query : z_owned_query_t
}.

(** [RpcInfo(const z_query_t *query)] *)
Definition RpcInfo_ctor {T} (query : z_query_t) : M T RpcInfo :=
  let keyexpr := keyexpr2string (Some (query_keyexpr query)) in
  let payload := extract (query_value query) in
  let attachment := query_attachment query in
  if negb (z_check attachment)
  then throw (runtime_error "attachment is missing")
  else
    let avalue := z_attachment_get attachment "attributes" in
    emit (EvQueryClone query) ;;
    ret (mk_RpcInfo keyexpr (mkMessage payload (extract avalue))
           (mk_owned_query query)).

(** [~RpcInfo()] *)
Definition RpcInfo_dtor {T} (info : RpcInfo) : M T unit :=
  emit (EvQueryDrop (owned_query info)).

Definition RpcServerCallback :=
  list Event -> string -> Message -> Result (option Message).

Record RpcServerImpl := mk_RpcServerImpl {
  srv_session : SessionImpl;
  qable : z_owned_queryable_t;
  srv_fifo : Fifo.t RpcInfo;
  srv_pool : nat;
  srv_callback : RpcServerCallback
}.

Definition set_srv_fifo (f : Fifo.t RpcInfo) (self : RpcServerImpl) : RpcServerImpl :=
  mk_RpcServerImpl (srv_session self) (qable self) f (srv_pool self)
    (srv_callback self).

(** [void handler(const z_query_t *query)] *)
Definition RpcServerImpl_handler (query : z_query_t) : M RpcServerImpl unit :=
  info <- RpcInfo_ctor query ;;
  modify_this (fun self => set_srv_fifo (Fifo.push info (srv_fifo self)) self).

(** [static void _handler(const z_query_t *query, void *context)]: the
    closure handed to [z_declare_queryable]; [context] is the server. *)
Definition RpcServerImpl__handler (query : z_query_t) : M RpcServerImpl unit :=
  RpcServerImpl_handler query.

(** What the worker does with a dequeued [RpcInfo]: the rest of a round of
    its loop.  [ptr] is the last owner of the [RpcInfo], whose destructor
    runs when the round ends. *)
Definition RpcServerImpl_process (ptr : RpcInfo) : M RpcServerImpl unit :=
  self <- get_this ;;
  scoped
    (results <- user_call
                  (fun h => srv_callback self h (keyexpr ptr) (rpc_message ptr))
                  (EvRpcCallback (keyexpr ptr) (rpc_message ptr)) ;;
     match results with
     | Some reply =>
         let query := owned_query ptr in
         let map := z_bytes_map_insert_by_alias "attributes"
                      (pack (attributes reply)) z_bytes_map_new in
         let attachment := z_bytes_map_as_attachment map in
         let k := z_keyexpr (c_str (keyexpr ptr)) in
         outside
           (fun h => query_reply_answer backend h query k (payload reply)
                       attachment)
           (fun _ => EvQueryReply query k (payload reply) attachment) ;;
         ret tt
     | None => emit (EvCout ("no results to send" ++ endl))
     end)
    (RpcInfo_dtor ptr).

(** One round of the [while (true)] of [void worker()]. *)
Definition RpcServerImpl_worker_body (_ : unit)
  : M RpcServerImpl (ctl unit worker_exit) :=
  self <- get_this ;;
  let (ptr, fifo') := Fifo.pull (srv_fifo self) in
  modify_this (set_srv_fifo fifo') ;;
  match ptr with
  | Fifo.waits => ret (leave waiting)
  | Fifo.nullptr => ret (leave returned)
  | Fifo.item p => RpcServerImpl_process p ;; ret (next tt)
  end.

(** [void worker()] *)
Definition RpcServerImpl_worker (fuel : nat) : M RpcServerImpl (option worker_exit) :=
  loop fuel RpcServerImpl_worker_body tt.

Definition RpcServerImpl_ctor (session_base : SessionImpl) (keyexpr : string)
  (callback : RpcServerCallback) (thread_count : nat) : M unit RpcServerImpl :=
  emit (EvCout (registering_line keyexpr thread_count)) ;;
  let k := z_keyexpr (c_str keyexpr) in
  q <- outside
         (fun h => declare_queryable_answer backend h (session session_base) k)
         (fun _ => EvDeclareQueryable (session session_base) k) ;;
  if negb (z_check q)
  then throw (runtime_error "Unable to create queryable.")
  else
    emit (EvThreadPool thread_count) ;;
    ret (mk_RpcServerImpl session_base q Fifo.empty thread_count callback).



End Transport.

(** ** Reading a trace *)

(** The backend queries released by [z_query_drop], in order. *)
Definition drops (evs : list Event) : list z_owned_query_t :=
  omap (fun ev => match ev with EvQueryDrop q => Some q | _ => None end) evs.

(** The backend queries cloned by [z_query_clone], in order. *)
Definition clones (evs : list Event) : list z_owned_query_t :=
  omap (fun ev => match ev with
                  | EvQueryClone q => Some (mk_owned_query q)
                  | _ => None
                  end) evs.

(** The calls of [z_query_reply], in order, with their arguments. *)
Definition replies (evs : list Event)
  : list (z_owned_query_t * z_keyexpr_t * string * z_attachment_t) :=
  omap (fun ev => match ev with
                  | EvQueryReply q k data att => Some (q, k, data, att)
                  | _ => None
                  end) evs.

(** The invocations of the RPC server's user callback, in order. *)
Definition rpc_callbacks (evs : list Event) : list (string * Message) :=
  omap (fun ev => match ev with
                  | EvRpcCallback k m => Some (k, m)
                  | _ => None
                  end) evs.

(** The attachment that carries [attrs] under the key "attributes". *)
Definition attributes_map (attrs : string) : gmap string string :=
  z_bytes_map_insert_by_alias "attributes" (pack attrs) z_bytes_map_new.

Definition attributes_attachment (attrs : string) : z_attachment_t :=
  z_bytes_map_as_attachment (attributes_map attrs).

(** What [operator()] of the RPC client makes of a sample. *)
Definition decoded (sample : z_sample_t) : string * Message :=
  (c_str (sample_keyexpr sample),
   mkMessage (extract (sample_payload sample))
     (extract (z_attachment_get (sample_attachment sample) "attributes"))).

(** ** A closure called by the backend *)

(** The backend is C code and calls [_handler] on a thread of its own.  The
    source has no try block and the frames of the backend hold no handler
    for a C++ exception, so an exception that leaves the closure is caught
    nowhere: the C++ runtime calls std::terminate and the program ends, and
    with it the worker pool and every registration with the backend. *)
Inductive program (T : Type) :=
| running (s : State T)
| terminated (e : exception).
Arguments running {T} s.
Arguments terminated {T} e.

Definition called_by_backend {T} (closure : M T unit) (s : State T) : program T :=
  match closure s with
  | (Ok _, s') => running s'
  | (Throw e, _) => terminated e
  end.

(** ** The claim on a query without attachment, as the specification words it *)

(** "The event is rejected before enqueue (the user callback is never invoked
    for it), and this single bad event does not terminate the worker pool or
    the queryable registration": after the delivery the program runs on,
    with the queue, open or not, and the queryable as they were and no
    callback called. *)
Definition bad_query_is_only_rejected
  (self : RpcServerImpl) (t : list Event) (query : z_query_t) : Prop :=
  exists s',
    called_by_backend (RpcServerImpl__handler query) (mk_state self t) = running s'
    /\ srv_fifo (this s') = srv_fifo self
    /\ qable (this s') = qable self
    /\ rpc_callbacks (trace s') = rpc_callbacks t.

(** ** The claim on the outcome of an RPC call, as the specification words it *)

(** "Blocks until either (a) one reply arrives: returns its topic and decoded
    Message; or (b) the backend signals channel closed or no reply within the
    timeout: fails with a timeout error."  A reply that arrives is a sample;
    every other way for the wait to end falls under (b). *)
Definition call_returns_reply_or_times_out
  (self : RpcClientImpl) (t : list Event) (fuel : nat) : Prop :=
  let outcome := fst (RpcClientImpl_call fuel (mk_state self t)) in
  (exists sample rest,
      channel self = reply_sample sample :: rest
      /\ outcome = Ok (Some (decoded sample)))
  \/ ((forall sample rest, channel self <> reply_sample sample :: rest)
      /\ exists what, outcome = Throw (runtime_error what)).

(** ** Concrete backends, objects and events used in the examples *)

(** A backend that accepts everything. *)
Definition accepting_backend : Backend :=
  mk_backend
    (fun _ => true)
    (fun _ => value (mk_session 0))
    (fun _ _ _ => Some 1%nat)
    (fun _ _ _ _ => 0%Z)
    (fun _ _ _ => value 2%nat)
    (fun _ _ _ _ _ _ => [])
    (fun _ _ _ => Some 3%nat)
    (fun _ _ _ _ _ => 0%Z).

(** A backend whose [z_query_reply] fails with -1. *)
Definition reply_failing_backend : Backend :=
  mk_backend
    (fun _ => true)
    (fun _ => value (mk_session 0))
    (fun _ _ _ => Some 1%nat)
    (fun _ _ _ _ => 0%Z)
    (fun _ _ _ => value 2%nat)
    (fun _ _ _ _ _ _ => [])
    (fun _ _ _ => Some 3%nat)
    (fun _ _ _ _ _ => (-1)%Z).

Definition a_session : SessionImpl := mk_SessionImpl "" (mk_session 0).

Definition a_query : z_query_t :=
  mk_query 7 "svc" (Some "abc") (attributes_attachment "m").

Definition a_query_without_attachment : z_query_t :=
  mk_query 8 "svc" (Some "abc") None.

Definition an_rpc_info : RpcInfo :=
  mk_RpcInfo "svc" (mkMessage "abc" "m") (mk_owned_query a_query).

Definition a_sub_info : SubInfo := mk_SubInfo "a/b" (mkMessage "x" "m").

(** Callbacks: one that answers with the payload reversed, one that answers
    nothing, and subscriber callbacks that return or raise. *)
Definition reversing_callback : RpcServerCallback :=
  fun _ _ m => Ok (Some (mkMessage (String.rev (payload m)) (attributes m))).

Definition silent_callback : RpcServerCallback := fun _ _ _ => Ok None.

Definition quiet_callback : SubscriberServerCallback := fun _ _ _ _ => Ok tt.

Definition raising_callback : SubscriberServerCallback :=
  fun _ _ _ _ => Throw (user_exception "callback failed").

Definition a_server (cb : RpcServerCallback) (queue : list RpcInfo) (closed : bool)
  : RpcServerImpl :=
  mk_RpcServerImpl a_session (Some 3%nat) (Fifo.mk queue closed) 2 cb.

Definition a_subscriber (cb : SubscriberServerCallback) (queue : list SubInfo)
  (closed : bool) : SubscriberImpl :=
  mk_SubscriberImpl a_session 2 "a/*" (Fifo.mk queue closed) 4 cb.

(** ** Deliveries, sequences of sends and what travels through the backend *)

(** The [z_owned_reply_t] values released by [z_drop], in order. *)
Definition reply_drops (evs : list Event) : list z_owned_reply_t :=
  omap (fun ev => match ev with EvReplyDrop r => Some r | _ => None end) evs.

(** The payload and attachment of each [z_publisher_put], in order. *)
Definition puts (evs : list Event) : list (string * z_attachment_t) :=
  omap (fun ev => match ev with
                  | EvPublisherPut _ data att => Some (data, att)
                  | _ => None
                  end) evs.

(** The backend calls the closure once for each query it delivers; an
    exception that leaves the closure ends the deliveries. *)
Fixpoint deliver_queries (queries : list z_query_t) : M RpcServerImpl unit :=
  match queries with
  | [] => ret tt
  | query :: rest => RpcServerImpl__handler query ;; deliver_queries rest
  end.

(** The backend calls [handler] once for each sample it delivers; the
    subscriber's [handler] raises nothing. *)
Definition deliver_samples (samples : list z_sample_t) (s : State SubscriberImpl)
  : State SubscriberImpl :=
  foldl (fun s sample => snd (SubscriberImpl_handler sample s)) s samples.

Definition RpcInfo_of (query : z_query_t) : RpcInfo :=
  mk_RpcInfo (c_str (query_keyexpr query))
    (mkMessage (extract (query_value query))
       (extract (z_attachment_get (query_attachment query) "attributes")))
    (mk_owned_query query).

(** A user that sends one message after the other on a publisher. *)
Fixpoint send_all (backend : Backend) (messages : list Message)
  : M PublisherImpl unit :=
  match messages with
  | [] => ret tt
  | message :: rest =>
      PublisherImpl_call backend message ;; send_all backend rest
  end.

(** The sample under key [k] that carries what a put handed to the backend. *)
Definition sample_of_put (k : string) (p : string * z_attachment_t) : z_sample_t :=
  mk_sample k (Some (fst p)) (snd p).

(** A backend for which the empty string is not a key expression. *)
Definition strict_backend : Backend :=
  mk_backend
    (fun name => negb (String.eqb name ""))
    (fun _ => value (mk_session 0))
    (fun _ _ _ => Some 1%nat)
    (fun _ _ _ _ => 0%Z)
    (fun _ _ _ => value 2%nat)
    (fun _ _ _ _ _ _ => [reply_error "Timeout"])
    (fun _ _ _ => Some 3%nat)
    (fun _ _ _ _ _ => 0%Z).

(** ** The monad computes *)

Lemma bind_ok {T A B} (m : M T A) (k : A -> M T B) s a s' :
  m s = (Ok a, s') -> bind m k s = k a s'.
Proof. intros E. unfold bind. now rewrite E. Qed.

Lemma bind_throw {T A B} (m : M T A) (k : A -> M T B) s e s' :
  m s = (Throw e, s') -> bind m k s = (Throw e, s').
Proof. intros E. unfold bind. now rewrite E. Qed.

Lemma loop_S {T L R} fuel (body : L -> M T (ctl L R)) l s :
  loop (S fuel) body l s =
  match body l s with
  | (Ok (next l'), s') => loop fuel body l' s'
  | (Ok (leave r), s') => (Ok (Some r), s')
  | (Throw e, s') => (Throw e, s')
  end.
Proof.
  cbn [loop]. unfold bind.
  destruct (body l s) as [[[l'|r]|e] s']; reflexivity.
Qed.

Lemma c_str_idemp s : c_str (c_str s) = c_str s.
Proof.
  induction s as [|c rest IH]; [reflexivity|].
  cbn [c_str]. destruct (Ascii.eqb c Ascii.zero) eqn:E; [reflexivity|].
  cbn [c_str]. rewrite E. now f_equal.
Qed.

(** The attachment built by the senders is the one-entry map, and the
    receivers read the attributes back from it. *)
Lemma attributes_attachment_singleton attrs :
  attributes_attachment attrs = Some {[ "attributes" := attrs ]}.
Proof.
  unfold attributes_attachment, attributes_map, z_bytes_map_as_attachment,
    z_bytes_map_insert_by_alias, z_bytes_map_new, pack, extract.
  now rewrite insert_empty.
Qed.

Lemma attributes_attachment_get attrs :
  extract (z_attachment_get (attributes_attachment attrs) "attributes") = attrs.
Proof.
  rewrite attributes_attachment_singleton. cbn.
  now rewrite lookup_singleton_eq.
Qed.

Lemma drops_app a b : drops (a ++ b) = drops a ++ drops b.
Proof. apply omap_app. Qed.

Lemma replies_app a b : replies (a ++ b) = replies a ++ replies b.
Proof. apply omap_app. Qed.

Lemma clones_app a b : clones (a ++ b) = clones a ++ clones b.
Proof. apply omap_app. Qed.

Lemma rpc_callbacks_app a b :
  rpc_callbacks (a ++ b) = rpc_callbacks a ++ rpc_callbacks b.
Proof. apply omap_app. Qed.

(** ** Publisher *)

(** C6.  [Publisher.send] hands the message's payload, and its attributes as
    the attachment entry "attributes", to [z_publisher_put] before it
    returns, exactly once; it returns normally when the backend answers 0 and
    raises [runtime_error "Cannot publish"] for every other answer. *)
Theorem publisher_send_forwards_and_surfaces
  (backend : Backend) (self : PublisherImpl) (message : Message) (t : list Event) :
  let att := attributes_attachment (attributes message) in
  let rc := publisher_put_answer backend t (pub_handle self) (payload message) att in
  PublisherImpl_call backend message (mk_state self t) =
  (if (rc =? 0)%Z then Ok tt else Throw (runtime_error "Cannot publish"),
   mk_state self
     (t ++ [EvPublisherPut (pub_handle self) (payload message) att;
            EvBytesMapDrop (attributes_map (attributes message))])).
Proof.
  intros att rc.
  unfold PublisherImpl_call, bind, get_this, emit, outside, throw.
  cbn. fold (pack (attributes message)).
  fold (attributes_map (attributes message)).
  fold (attributes_attachment (attributes message)). fold att. fold rc.
  destruct (rc =? 0)%Z; cbn; rewrite <- app_assoc; reflexivity.
Qed.

(** ** Construction *)

(** C7.  Each constructor asks the backend once.  When the backend rejects
    (an error message from [open] or [declare_subscriber], an invalid handle
    from [z_declare_publisher] or [z_declare_queryable]) the constructor
    raises and yields no object; nothing further is called, the declaration
    is not repeated and no thread pool is started. *)
Theorem construction_failure_is_fatal
  (backend : Backend) (doc topic : string) (session_base : SessionImpl)
  (sub_cb : SubscriberServerCallback) (rpc_cb : RpcServerCallback)
  (thread_count : nat) (t : list Event) :
  let s := session session_base in
  let k := z_keyexpr backend (c_str topic) in
  let line := EvCout (registering_line topic thread_count) in
  SessionImpl_ctor backend doc (mk_state tt t) =
    (match open_answer backend t with
     | value z => Ok (mk_SessionImpl doc z)
     | error_message msg => Throw (ErrorMessage msg)
     end, mk_state tt (t ++ [EvOpen]))
  /\ PublisherImpl_ctor backend session_base topic (mk_state tt t) =
    (match declare_publisher_answer backend t s k with
     | Some h => Ok (mk_PublisherImpl session_base topic (Some h))
     | None => Throw (runtime_error "Cannot declare publisher")
     end, mk_state tt (t ++ [EvDeclarePublisher s k]))
  /\ RpcServerImpl_ctor backend session_base topic rpc_cb thread_count
       (mk_state tt t) =
    match declare_queryable_answer backend (t ++ [line]) s k with
    | Some q =>
        (Ok (mk_RpcServerImpl session_base (Some q) Fifo.empty thread_count rpc_cb),
         mk_state tt (t ++ [line; EvDeclareQueryable s k; EvThreadPool thread_count]))
    | None =>
        (Throw (runtime_error "Unable to create queryable."),
         mk_state tt (t ++ [line; EvDeclareQueryable s k]))
    end
  /\ SubscriberImpl_ctor backend session_base topic sub_cb thread_count
       (mk_state tt t) =
    match declare_subscriber_answer backend t s topic with
    | value h =>
        (Ok (mk_SubscriberImpl session_base h topic Fifo.empty thread_count sub_cb),
         mk_state tt (t ++ [EvDeclareSubscriber s topic; EvThreadPool thread_count]))
    | error_message msg =>
        (Throw (ErrorMessage msg), mk_state tt (t ++ [EvDeclareSubscriber s topic]))
    end.
Proof.
  intros s k line. repeat split.
  - unfold SessionImpl_ctor, inst, bind, outside, expect, ret, throw. cbn.
    destruct (open_answer backend t); reflexivity.
  - unfold PublisherImpl_ctor, bind, outside, ret, throw. cbn.
    fold s. fold k.
    destruct (declare_publisher_answer backend t s k); reflexivity.
  - unfold RpcServerImpl_ctor, bind, emit, outside, ret, throw. cbn.
    fold s. fold k. fold line.
    destruct (declare_queryable_answer backend (t ++ [line]) s k); cbn;
      repeat rewrite <- app_assoc; reflexivity.
  - unfold SubscriberImpl_ctor, bind, emit, outside, expect, ret, throw. cbn.
    fold s.
    destruct (declare_subscriber_answer backend t s topic); cbn;
      repeat rewrite <- app_assoc; reflexivity.
Qed.

(** ** RPC client *)

(** One unfolding of [operator()]: what it does is decided by the first thing
    the channel yields; the fuel plays no part as soon as there is some. *)
Lemma RpcClientImpl_call_eval (self : RpcClientImpl) (t : list Event) (n : nat) :
  RpcClientImpl_call (S n) (mk_state self t) =
  match channel self with
  | [] =>
      (Ok (Some ("", Message_default)),
       mk_state self (t ++ [EvRecv None; EvReplyDrop None]))
  | reply_sample sample :: rest =>
      (Ok (Some (decoded sample)),
       mk_state (mk_RpcClientImpl (rpc_session self) rest)
         (t ++ [EvRecv (Some (reply_sample sample));
                EvReplyDrop (Some (reply_sample sample))]))
  | reply_error v :: rest =>
      (Throw (runtime_error "RPC client timed out."),
       mk_state (mk_RpcClientImpl (rpc_session self) rest)
         (t ++ [EvRecv (Some (reply_error v))]))
  end.
Proof.
  unfold RpcClientImpl_call, channel_recv.
  destruct self as [sess [|[sample|v] rest]]; cbn -[loop].
  - unfold bind at 1. cbn -[loop]. rewrite loop_S. cbn.
    now rewrite <- app_assoc.
  - unfold bind at 1. cbn -[loop]. rewrite loop_S. cbn.
    now rewrite <- app_assoc.
  - unfold bind at 1. cbn -[loop]. now rewrite loop_S.
Qed.

(** C9.  When the reply channel closes without having yielded a reply,
    [operator()] returns the empty topic with a message whose payload and
    attributes are empty, and raises nothing. *)
Theorem call_on_closed_channel_returns_empty
  (sess : SessionImpl) (t : list Event) (n : nat) :
  let self := mk_RpcClientImpl sess [] in
  RpcClientImpl_call (S n) (mk_state self t) =
  (Ok (Some ("", mkMessage "" "")),
   mk_state self (t ++ [EvRecv None; EvReplyDrop None])).
Proof. intros self. now rewrite RpcClientImpl_call_eval. Qed.

(** C1, as the specification words it, fails when the channel closes with no
    reply: the call returns normally. *)
Lemma call_on_closed_channel_is_a_third_outcome :
  ~ call_returns_reply_or_times_out (mk_RpcClientImpl a_session []) [] 1.
Proof.
  unfold call_returns_reply_or_times_out.
  rewrite RpcClientImpl_call_eval. cbn.
  intros [(sample & rest & Hch & _) | (_ & what & Hthrow)]; discriminate.
Qed.

(** C1, amended.  [operator()] has three outcomes, decided by the first thing
    the channel yields.  A sample: the call returns its key expression and
    its payload and attributes, and leaves the replies behind it unread in
    the channel.  An error reply: the call raises
    [runtime_error "RPC client timed out."].  The closed channel: the call
    returns the empty topic and the empty message. *)
Theorem call_outcomes (self : RpcClientImpl) (t : list Event) (n : nat) :
  let outcome := RpcClientImpl_call (S n) (mk_state self t) in
  match channel self with
  | reply_sample sample :: rest =>
      fst outcome = Ok (Some (decoded sample))
      /\ channel (this (snd outcome)) = rest
  | reply_error v :: rest =>
      fst outcome = Throw (runtime_error "RPC client timed out.")
  | [] =>
      fst outcome = Ok (Some ("", Message_default))
  end.
Proof.
  intros outcome. subst outcome. rewrite RpcClientImpl_call_eval.
  destruct (channel self) as [|[sample|v] rest]; cbn; auto.
Qed.

(** ** RPC server *)

(** The constructor of [RpcInfo] on a query that carries an attachment. *)
Lemma RpcInfo_ctor_eval {T} (query : z_query_t) (s : State T) :
  RpcInfo_ctor query s =
  match query_attachment query with
  | Some m =>
      (Ok (mk_RpcInfo (c_str (query_keyexpr query))
             (mkMessage (extract (query_value query))
                (extract (m !! "attributes")))
             (mk_owned_query query)),
       mk_state (this s) (trace s ++ [EvQueryClone query]))
  | None => (Throw (runtime_error "attachment is missing"), s)
  end.
Proof.
  unfold RpcInfo_ctor. destruct (query_attachment query); reflexivity.
Qed.

(** What processing one dequeued [RpcInfo] does, by the callback's outcome. *)
Lemma RpcServerImpl_process_eval
  (backend : Backend) (self : RpcServerImpl) (ptr : RpcInfo) (t : list Event) :
  let cb := EvRpcCallback (keyexpr ptr) (rpc_message ptr) in
  let k := z_keyexpr backend (c_str (keyexpr ptr)) in
  RpcServerImpl_process backend ptr (mk_state self t) =
  match srv_callback self t (keyexpr ptr) (rpc_message ptr) with
  | Ok (Some reply) =>
      (Ok tt,
       mk_state self
         (t ++ [cb;
                EvQueryReply (owned_query ptr) k (payload reply)
                  (attributes_attachment (attributes reply));
                EvQueryDrop (owned_query ptr)]))
  | Ok None =>
      (Ok tt,
       mk_state self
         (t ++ [cb; EvCout ("no results to send" ++ endl);
                EvQueryDrop (owned_query ptr)]))
  | Throw e => (Throw e, mk_state self (t ++ [cb]))
  end.
Proof.
  intros cb k.
  unfold RpcServerImpl_process, scoped, bind, get_this, user_call, RpcInfo_dtor,
    emit, outside, ret.
  cbn. fold cb.
  destruct (srv_callback self t (keyexpr ptr) (rpc_message ptr))
    as [[reply|]|e]; cbn; repeat rewrite <- app_assoc; reflexivity.
Qed.

(** The backend's answer to [z_query_reply] is never looked at: two backends
    that agree on which strings are key expressions give the same run. *)
Lemma reply_answer_is_ignored
  (b1 b2 : Backend) (self : RpcServerImpl) (ptr : RpcInfo) (t : list Event) :
  keyexpr_is_valid b1 = keyexpr_is_valid b2 ->
  RpcServerImpl_process b1 ptr (mk_state self t) =
  RpcServerImpl_process b2 ptr (mk_state self t).
Proof.
  intros Hk. rewrite !RpcServerImpl_process_eval.
  unfold z_keyexpr. now rewrite Hk.
Qed.

(** One round of the worker's loop, by what [pull] hands out. *)
Lemma RpcServerImpl_worker_body_eval
  (backend : Backend) (self : RpcServerImpl) (t : list Event) :
  RpcServerImpl_worker_body backend tt (mk_state self t) =
  match Fifo.pull (srv_fifo self) with
  | (Fifo.waits, f') => (Ok (leave waiting), mk_state (set_srv_fifo f' self) t)
  | (Fifo.nullptr, f') => (Ok (leave returned), mk_state (set_srv_fifo f' self) t)
  | (Fifo.item p, f') =>
      match RpcServerImpl_process backend p (mk_state (set_srv_fifo f' self) t) with
      | (Ok _, s') => (Ok (next tt), s')
      | (Throw e, s') => (Throw e, s')
      end
  end.
Proof.
  unfold RpcServerImpl_worker_body, bind, get_this. cbn.
  destruct (Fifo.pull (srv_fifo self)) as [[p| |] f']; reflexivity.
Qed.

Lemma set_srv_fifo_twice f g self :
  set_srv_fifo f (set_srv_fifo g self) = set_srv_fifo f self.
Proof. reflexivity. Qed.

Lemma set_srv_fifo_same self : set_srv_fifo (srv_fifo self) self = self.
Proof. now destruct self. Qed.


(** A worker with more fuel than there are queued events does not run out:
    it returns, waits in [pull], or is left by an exception. *)
Lemma RpcServerImpl_worker_total
  (backend : Backend) (fuel : nat) (self : RpcServerImpl) (t : list Event) :
  (length (Fifo.queue (srv_fifo self)) < fuel)%nat ->
  fst (RpcServerImpl_worker backend fuel (mk_state self t)) <> Ok None.
Proof.
  unfold RpcServerImpl_worker.
  remember (Fifo.queue (srv_fifo self)) as q eqn:Hq.
  revert fuel self t Hq.
  induction q as [|p rest IH]; intros [|fuel] self t Hq Hlen; cbn in Hlen;
    try lia; rewrite loop_S, RpcServerImpl_worker_body_eval; unfold Fifo.pull;
    rewrite <- Hq; destruct (Fifo.closed (srv_fifo self)); try discriminate.
  rewrite RpcServerImpl_process_eval. cbn.
  destruct (srv_callback self t (keyexpr p) (rpc_message p)) as [[reply|]|e];
    try discriminate; apply IH; try reflexivity; lia.
Qed.

(** A run of one worker over an open queue, with a callback that never
    raises: every queued event is handed to the callback, in order, and every
    owned query is released once, in order; then the worker waits. *)
Lemma RpcServerImpl_worker_run
  (backend : Backend) (q : list RpcInfo) (fuel : nat) (self : RpcServerImpl)
  (t : list Event) :
  srv_fifo self = Fifo.mk q false ->
  (forall h k m, exists r, srv_callback self h k m = Ok r) ->
  (length q < fuel)%nat ->
  exists new,
    RpcServerImpl_worker backend fuel (mk_state self t) =
      (Ok (Some waiting), mk_state (set_srv_fifo (Fifo.mk [] false) self) (t ++ new))
    /\ drops new = map owned_query q
    /\ rpc_callbacks new = map (fun p => (keyexpr p, rpc_message p)) q.
Proof.
  unfold RpcServerImpl_worker.
  revert fuel self t.
  induction q as [|p rest IH]; intros [|fuel] self t Hf Hcb Hlen; cbn in Hlen;
    try lia; rewrite loop_S, RpcServerImpl_worker_body_eval; unfold Fifo.pull;
    rewrite Hf; cbn -[RpcServerImpl_process].
  - exists []. now rewrite app_nil_r.
  - rewrite RpcServerImpl_process_eval. cbn.
    destruct (Hcb t (keyexpr p) (rpc_message p)) as [r Hr]. rewrite Hr.
    destruct r as [reply|];
      (edestruct (IH fuel (set_srv_fifo (Fifo.mk rest false) self))
         as (new & Hrun & Hdrops & Hcalls);
       [reflexivity | exact Hcb | lia |];
       eexists; rewrite Hrun, <- app_assoc;
       split; [reflexivity|];
       rewrite drops_app, rpc_callbacks_app, Hdrops, Hcalls;
       split; reflexivity).
Qed.

(** A round of the worker on the event that [pull] hands out: the event is
    processed, and the worker goes round again unless an exception left. *)
Lemma RpcServerImpl_worker_round
  (backend : Backend) (self : RpcServerImpl) (p : RpcInfo)
  (fifo' : Fifo.t RpcInfo) (t : list Event) (n : nat) :
  Fifo.pull (srv_fifo self) = (Fifo.item p, fifo') ->
  RpcServerImpl_worker backend (S n) (mk_state self t) =
  match RpcServerImpl_process backend p (mk_state (set_srv_fifo fifo' self) t) with
  | (Ok _, s') => RpcServerImpl_worker backend n s'
  | (Throw e, s') => (Throw e, s')
  end.
Proof.
  intros Hpull. unfold RpcServerImpl_worker.
  rewrite loop_S, RpcServerImpl_worker_body_eval, Hpull.
  destruct (RpcServerImpl_process backend p _) as [[[]|e] s']; reflexivity.
Qed.

(** C4.  A worker runs over an open queue with a callback that returns, with
    a reply or without, on every event.  It takes every event off the queue
    and, while it does, the calls of [z_query_drop] are one for each event
    taken, on that event's owned query and in the order taken: no event's
    query is left unreleased and none is released twice.  What the backend
    answers to the replies plays no part. *)
Theorem worker_releases_every_query_once
  (backend : Backend) (q : list RpcInfo) (fuel : nat) (self : RpcServerImpl)
  (t : list Event) :
  srv_fifo self = Fifo.mk q false ->
  (forall h k m, exists results, srv_callback self h k m = Ok results) ->
  (length q < fuel)%nat ->
  exists new,
    RpcServerImpl_worker backend fuel (mk_state self t) =
      (Ok (Some waiting), mk_state (set_srv_fifo (Fifo.mk [] false) self) (t ++ new))
    /\ drops new = map owned_query q.
Proof.
  revert fuel self t.
  induction q as [|p rest IH]; intros fuel self t Hf Hcb Hlen;
    destruct fuel as [|fuel]; cbn in Hlen; try lia.
  - exists []. unfold RpcServerImpl_worker.
    rewrite loop_S, RpcServerImpl_worker_body_eval. unfold Fifo.pull.
    rewrite Hf, app_nil_r. split; reflexivity.
  - rewrite (RpcServerImpl_worker_round backend self p (Fifo.mk rest false));
      [|unfold Fifo.pull; now rewrite Hf].
    rewrite RpcServerImpl_process_eval. cbn [srv_callback set_srv_fifo].
    destruct (Hcb t (keyexpr p) (rpc_message p)) as [results Hresults].
    rewrite Hresults.
    destruct results as [reply|];
      (edestruct (IH fuel (set_srv_fifo (Fifo.mk rest false) self))
         as (new & Hrun & Hdrops); [reflexivity | exact Hcb | lia |];
       eexists; rewrite Hrun, <- app_assoc, set_srv_fifo_twice;
       split; [reflexivity|]; rewrite drops_app, Hdrops; reflexivity).
Qed.

Lemma worker_releases_every_query_once_witness :
  let other := mk_RpcInfo "svc" (mkMessage "" "") (mk_owned_query (mk_query 9 "svc" None None)) in
  let self := a_server reversing_callback [an_rpc_info; other] false in
  srv_fifo self = Fifo.mk [an_rpc_info; other] false
  /\ (forall h k m, exists results, srv_callback self h k m = Ok results)
  /\ (length [an_rpc_info; other] < 3)%nat
  /\ exists new,
      RpcServerImpl_worker reply_failing_backend 3 (mk_state self []) =
        (Ok (Some waiting),
         mk_state (set_srv_fifo (Fifo.mk [] false) self) ([] ++ new))
      /\ drops new = map owned_query [an_rpc_info; other].
Proof.
  intros other self.
  split; [reflexivity|]. split; [intros; eexists; reflexivity|].
  split; [cbn; lia|].
  apply (worker_releases_every_query_once reply_failing_backend
           [an_rpc_info; other] 3 self []);
    [reflexivity | intros; eexists; reflexivity | cbn; lia].
Defined.



(** [handler] on a query that carries an attachment: the query is cloned and
    the decoded event is appended to the queue. *)
Lemma RpcServerImpl_handler_eval (query : z_query_t) (s : State RpcServerImpl) :
  RpcServerImpl_handler query s =
  match query_attachment query with
  | Some m =>
      let info :=
        mk_RpcInfo (c_str (query_keyexpr query))
          (mkMessage (extract (query_value query)) (extract (m !! "attributes")))
          (mk_owned_query query) in
      (Ok tt,
       mk_state (set_srv_fifo (Fifo.push info (srv_fifo (this s))) (this s))
         (trace s ++ [EvQueryClone query]))
  | None => (Throw (runtime_error "attachment is missing"), s)
  end.
Proof.
  unfold RpcServerImpl_handler.
  destruct (query_attachment query) as [m|] eqn:Hatt.
  - erewrite bind_ok; [|rewrite RpcInfo_ctor_eval, Hatt; reflexivity].
    reflexivity.
  - erewrite bind_throw; [|rewrite RpcInfo_ctor_eval, Hatt]; reflexivity.
Qed.

(** C3, as the specification words it, fails on a query without attachment:
    the exception that rejects the query leaves the closure, so the program
    does not run on. *)
Lemma query_without_attachment_ends_the_program :
  ~ bad_query_is_only_rejected
      (a_server reversing_callback [an_rpc_info] false) []
      a_query_without_attachment.
Proof.
  unfold bad_query_is_only_rejected, called_by_backend, RpcServerImpl__handler.
  rewrite RpcServerImpl_handler_eval. cbn.
  intros (s' & Hrunning & _). discriminate.
Qed.

(** C3, amended.  A query without attachment is rejected before anything is
    enqueued: the constructor of [RpcInfo] raises
    [runtime_error "attachment is missing"] and [handler] is left with the
    server, its queue and the trace as they were, so the query is not cloned,
    nothing of it is queued and no callback is called for it.  Nothing
    contains the failure: the exception leaves [handler] and the closure
    [_handler] as it was raised, and a program whose backend made the call is
    terminated by it. *)
Theorem query_without_attachment_raises_uncaught
  (self : RpcServerImpl) (query : z_query_t) (t : list Event) :
  query_attachment query = None ->
  let raised := runtime_error "attachment is missing" in
  RpcServerImpl_handler query (mk_state self t) = (Throw raised, mk_state self t)
  /\ RpcServerImpl__handler query (mk_state self t) = (Throw raised, mk_state self t)
  /\ called_by_backend (RpcServerImpl__handler query) (mk_state self t) =
     terminated raised.
Proof.
  intros Hatt raised.
  assert (Hthrow : RpcServerImpl_handler query (mk_state self t) =
                   (Throw raised, mk_state self t)).
  { unfold RpcServerImpl_handler.
    apply bind_throw. rewrite RpcInfo_ctor_eval. now rewrite Hatt. }
  unfold called_by_backend, RpcServerImpl__handler. rewrite Hthrow.
  repeat split.
Qed.

Lemma query_without_attachment_raises_uncaught_witness :
  let self := a_server reversing_callback [an_rpc_info] false in
  let query := a_query_without_attachment in
  let raised := runtime_error "attachment is missing" in
  query_attachment query = None
  /\ RpcServerImpl_handler query (mk_state self []) = (Throw raised, mk_state self [])
  /\ RpcServerImpl__handler query (mk_state self []) = (Throw raised, mk_state self [])
  /\ called_by_backend (RpcServerImpl__handler query) (mk_state self []) =
     terminated raised.
Proof.
  intros self query raised. split; [reflexivity|].
  apply (query_without_attachment_raises_uncaught self query []). reflexivity.
Defined.

(** Processing an event clones nothing. *)
Lemma RpcServerImpl_process_no_clone
  (backend : Backend) (self : RpcServerImpl) (ptr : RpcInfo) (t : list Event) :
  exists r new,
    RpcServerImpl_process backend ptr (mk_state self t) = (r, mk_state self (t ++ new))
    /\ clones new = [].
Proof.
  rewrite RpcServerImpl_process_eval.
  destruct (srv_callback self t (keyexpr ptr) (rpc_message ptr)) as [[reply|]|e];
    do 2 eexists; split; reflexivity.
Qed.

(** C2, on the code.  The backend answers -1 to [z_query_reply]; the worker
    goes on to its next [pull] and waits there: nothing is raised and nothing
    in the object or the trace records the failure. *)
Theorem reply_failure_goes_unnoticed :
  let self := a_server reversing_callback [an_rpc_info] false in
  let sent :=
    EvQueryReply (mk_owned_query a_query) (Some "svc") "cba"
      (attributes_attachment "m") in
  let t := [EvRpcCallback "svc" (mkMessage "abc" "m")] in
  query_reply_answer reply_failing_backend t (mk_owned_query a_query)
    (Some "svc") "cba" (attributes_attachment "m") = (-1)%Z
  /\ RpcServerImpl_worker reply_failing_backend 2 (mk_state self []) =
     (Ok (Some waiting),
      mk_state (a_server reversing_callback [] false)
        (t ++ [sent; EvQueryDrop (mk_owned_query a_query)]))
  /\ RpcServerImpl_worker reply_failing_backend 2 (mk_state self []) =
     RpcServerImpl_worker accepting_backend 2 (mk_state self []).
Proof.
  intros self sent t. repeat split; reflexivity.
Qed.

(** The server side of an RPC: a query for "svc" with payload "abc" arrives,
    a worker hands it to a callback that reverses the payload, and the reply
    "cba" goes back on the clone of that query, which is then released. *)
Example rpc_round_on_the_server :
  let self := a_server reversing_callback [] false in
  let s1 := snd (RpcServerImpl_handler a_query (mk_state self [])) in
  RpcServerImpl_worker accepting_backend 2 s1 =
  (Ok (Some waiting),
   mk_state self
     [EvQueryClone a_query;
      EvRpcCallback "svc" (mkMessage "abc" "m");
      EvQueryReply (mk_owned_query a_query) (Some "svc") "cba"
        (attributes_attachment "m");
      EvQueryDrop (mk_owned_query a_query)]).
Proof.
  intros self s1. reflexivity.
Qed.

(** The same for every query that carries an attachment and every callback
    that answers it: the reply goes to the clone of the query that came in,
    under the key expression of that query. *)
Lemma rpc_round
  (backend : Backend) (self : RpcServerImpl) (query : z_query_t)
  (m : gmap string string) (t : list Event) (reply : Message) :
  let k := c_str (query_keyexpr query) in
  let request :=
    mkMessage (extract (query_value query)) (extract (m !! "attributes")) in
  srv_fifo self = Fifo.mk [] false ->
  query_attachment query = Some m ->
  srv_callback self (t ++ [EvQueryClone query]) k request = Ok (Some reply) ->
  exists s1,
    RpcServerImpl_handler query (mk_state self t) = (Ok tt, s1)
    /\ RpcServerImpl_worker backend 2 s1 =
       (Ok (Some waiting),
        mk_state self
          (t ++ [EvQueryClone query;
                 EvRpcCallback k request;
                 EvQueryReply (mk_owned_query query) (z_keyexpr backend k)
                   (payload reply) (attributes_attachment (attributes reply));
                 EvQueryDrop (mk_owned_query query)])).
Proof.
  intros k request Hf Hatt Hcb.
  rewrite RpcServerImpl_handler_eval, Hatt. eexists. split; [reflexivity|].
  unfold RpcServerImpl_worker.
  rewrite loop_S, RpcServerImpl_worker_body_eval. cbn [this trace].
  rewrite Hf. cbn -[RpcServerImpl_process loop].
  rewrite RpcServerImpl_process_eval. cbn -[loop].
  fold k. fold request. rewrite Hcb.
  rewrite loop_S, RpcServerImpl_worker_body_eval. cbn.
  replace (c_str k) with k by (symmetry; apply c_str_idemp).
  rewrite <- app_assoc, !set_srv_fifo_twice, <- Hf, set_srv_fifo_same.
  reflexivity.
Qed.

(** ** Subscriber *)

(** One round of the subscriber's worker loop, by what [pull] hands out. *)
Lemma SubscriberImpl_worker_body_eval (self : SubscriberImpl) (t : list Event) :
  SubscriberImpl_worker_body tt (mk_state self t) =
  match Fifo.pull (sub_fifo self) with
  | (Fifo.waits, f') => (Ok (leave waiting), mk_state (set_sub_fifo f' self) t)
  | (Fifo.nullptr, f') => (Ok (leave returned), mk_state (set_sub_fifo f' self) t)
  | (Fifo.item p, f') =>
      (match sub_callback self t (sending_topic p) (listening_topic self)
               (sub_message p) with
       | Ok _ => Ok (next tt)
       | Throw e => Throw e
       end,
       mk_state (set_sub_fifo f' self)
         (t ++ [EvSubscriberCallback (sending_topic p) (listening_topic self)
                  (sub_message p)]))
  end.
Proof.
  unfold SubscriberImpl_worker_body, bind, get_this, user_call. cbn.
  destruct (Fifo.pull (sub_fifo self)) as [[p| |] f']; cbn; try reflexivity.
  destruct (sub_callback self t _ _ _) as [[]|e]; reflexivity.
Qed.

(** C8.  A round of the subscriber's worker, by what [pull] hands out.  On
    the end-of-stream indicator the worker returns, having called nothing.
    On an event the user callback is called once, with the event's source
    topic, the topic subscribed to and the event's message; the worker then
    goes round again, or is left by the exception the callback raised.  While
    nothing is queued the worker waits in [pull]. *)
Theorem subscriber_worker_round
  (self : SubscriberImpl) (t : list Event) (ptr : Fifo.pulled SubInfo)
  (fifo' : Fifo.t SubInfo) :
  Fifo.pull (sub_fifo self) = (ptr, fifo') ->
  forall n,
    SubscriberImpl_worker (S n) (mk_state self t) =
    match ptr with
    | Fifo.nullptr => (Ok (Some returned), mk_state (set_sub_fifo fifo' self) t)
    | Fifo.item p =>
        let call :=
          EvSubscriberCallback (sending_topic p) (listening_topic self)
            (sub_message p) in
        match sub_callback self t (sending_topic p) (listening_topic self)
                (sub_message p) with
        | Ok _ =>
            SubscriberImpl_worker n
              (mk_state (set_sub_fifo fifo' self) (t ++ [call]))
        | Throw e => (Throw e, mk_state (set_sub_fifo fifo' self) (t ++ [call]))
        end
    | Fifo.waits => (Ok (Some waiting), mk_state (set_sub_fifo fifo' self) t)
    end.
Proof.
  intros Hpull n. unfold SubscriberImpl_worker.
  rewrite loop_S, SubscriberImpl_worker_body_eval, Hpull.
  destruct ptr as [p| |]; try reflexivity.
  cbv zeta.
  destruct (sub_callback self t (sending_topic p) (listening_topic self)
              (sub_message p)) as [[]|e]; reflexivity.
Qed.

Lemma subscriber_worker_round_witness :
  let self := a_subscriber quiet_callback [a_sub_info] false in
  Fifo.pull (sub_fifo self) = (Fifo.item a_sub_info, Fifo.mk [] false)
  /\ SubscriberImpl_worker 2 (mk_state self []) =
     (Ok (Some waiting),
      mk_state (a_subscriber quiet_callback [] false)
        [EvSubscriberCallback "a/b" "a/*" (mkMessage "x" "m")]).
Proof.
  intros self. split; [reflexivity|].
  exact (subscriber_worker_round self [] (Fifo.item a_sub_info) (Fifo.mk [] false)
           eq_refl 1).
Defined.

(** C10.  The subscriber's worker has no handler around the user callback.
    When the callback raises on the event at the head of the queue, the
    exception leaves [worker]: the run of the thread ends there, whatever
    fuel it had, and the events behind stay in the queue, with no call made
    for them. *)
Theorem subscriber_callback_exception_escapes
  (self : SubscriberImpl) (t : list Event) (p : SubInfo) (rest : list SubInfo)
  (e : exception) (n : nat) :
  sub_fifo self = Fifo.mk (p :: rest) false ->
  sub_callback self t (sending_topic p) (listening_topic self) (sub_message p)
    = Throw e ->
  SubscriberImpl_worker (S n) (mk_state self t) =
  (Throw e,
   mk_state (set_sub_fifo (Fifo.mk rest false) self)
     (t ++ [EvSubscriberCallback (sending_topic p) (listening_topic self)
              (sub_message p)])).
Proof.
  intros Hf Hcb. unfold SubscriberImpl_worker.
  rewrite loop_S, SubscriberImpl_worker_body_eval. unfold Fifo.pull.
  rewrite Hf. cbn. now rewrite Hcb.
Qed.

Lemma subscriber_callback_exception_escapes_witness :
  let self := a_subscriber raising_callback [a_sub_info; a_sub_info] false in
  sub_fifo self = Fifo.mk [a_sub_info; a_sub_info] false
  /\ sub_callback self [] "a/b" "a/*" (mkMessage "x" "m")
     = Throw (user_exception "callback failed")
  /\ SubscriberImpl_worker 5 (mk_state self []) =
     (Throw (user_exception "callback failed"),
      mk_state (a_subscriber raising_callback [a_sub_info] false)
        [EvSubscriberCallback "a/b" "a/*" (mkMessage "x" "m")]).
Proof.
  intros self. split; [reflexivity|]. split; [reflexivity|].
  apply (subscriber_callback_exception_escapes self [] a_sub_info [a_sub_info]
           (user_exception "callback failed") 4); reflexivity.
Defined.

Lemma set_sub_fifo_same self : set_sub_fifo (sub_fifo self) self = self.
Proof. now destruct self. Qed.

(** A subscriber's worker with more fuel than there are queued events does
    not run out: it returns, waits in [pull], or is left by an exception. *)
Lemma SubscriberImpl_worker_total
  (fuel : nat) (self : SubscriberImpl) (t : list Event) :
  (length (Fifo.queue (sub_fifo self)) < fuel)%nat ->
  fst (SubscriberImpl_worker fuel (mk_state self t)) <> Ok None.
Proof.
  unfold SubscriberImpl_worker.
  remember (Fifo.queue (sub_fifo self)) as q eqn:Hq.
  revert fuel self t Hq.
  induction q as [|p rest IH]; intros [|fuel] self t Hq Hlen; cbn in Hlen;
    try lia; rewrite loop_S, SubscriberImpl_worker_body_eval; unfold Fifo.pull;
    rewrite <- Hq; destruct (Fifo.closed (sub_fifo self)); try discriminate.
  destruct (sub_callback self t (sending_topic p) (listening_topic self)
              (sub_message p)) as [[]|e]; try discriminate.
  apply IH; [reflexivity | lia].
Qed.

(** A run of one subscriber worker over an open queue, with a callback that
    never raises: the callback is called for every queued event, in order,
    each time with the event's source topic, the topic subscribed to and the
    event's message; then the worker waits. *)
Lemma SubscriberImpl_worker_run
  (q : list SubInfo) (fuel : nat) (self : SubscriberImpl) (t : list Event) :
  sub_fifo self = Fifo.mk q false ->
  (forall h src dst m, sub_callback self h src dst m = Ok tt) ->
  (length q < fuel)%nat ->
  SubscriberImpl_worker fuel (mk_state self t) =
  (Ok (Some waiting),
   mk_state (set_sub_fifo (Fifo.mk [] false) self)
     (t ++ map (fun p => EvSubscriberCallback (sending_topic p)
                           (listening_topic self) (sub_message p)) q)).
Proof.
  unfold SubscriberImpl_worker.
  revert fuel self t.
  induction q as [|p rest IH]; intros [|fuel] self t Hf Hcb Hlen; cbn in Hlen;
    try lia; rewrite loop_S, SubscriberImpl_worker_body_eval; unfold Fifo.pull;
    rewrite Hf; cbn.
  - now rewrite app_nil_r.
  - rewrite Hcb.
    rewrite (IH fuel (set_sub_fifo (Fifo.mk rest false) self));
      [| reflexivity | exact Hcb | lia].
    cbn. now rewrite <- app_assoc.
Qed.

(** After the shutdown the subscriber's worker returns at its next [pull]. *)
Lemma SubscriberImpl_worker_returns_when_closed
  (self : SubscriberImpl) (t : list Event) (n : nat) :
  Fifo.closed (sub_fifo self) = true ->
  SubscriberImpl_worker (S n) (mk_state self t) =
  (Ok (Some returned), mk_state self t).
Proof.
  intros Hc. unfold SubscriberImpl_worker.
  rewrite loop_S, SubscriberImpl_worker_body_eval.
  unfold Fifo.pull. rewrite Hc. now rewrite set_sub_fifo_same.
Qed.

(** A sample delivered to [handler] is decoded and queued; a worker then
    calls the user with it. *)
Example sample_reaches_the_callback :
  let self := a_subscriber quiet_callback [] false in
  let sample := mk_sample "a/b" (Some "x") (attributes_attachment "m") in
  SubscriberImpl_worker 2
    (snd (SubscriberImpl_handler sample (mk_state self []))) =
  (Ok (Some waiting),
   mk_state self [EvSubscriberCallback "a/b" "a/*" (mkMessage "x" "m")]).
Proof. reflexivity. Qed.

(** ** Further properties: decoding and round trips *)

Lemma Message_eta (m : Message) : mkMessage (payload m) (attributes m) = m.
Proof. now destruct m. Qed.

(** What a subscriber decodes from the sample that carries a publisher's put
    is the message that was sent. *)
Lemma SubInfo_of_put (k : string) (m : Message) :
  SubInfo_ctor
    (sample_of_put k (payload m, attributes_attachment (attributes m))) =
  mk_SubInfo k m.
Proof.
  unfold SubInfo_ctor, sample_of_put. cbn [sample_keyexpr sample_payload
    sample_attachment fst snd extract].
  now rewrite attributes_attachment_get, Message_eta.
Qed.

(** The request travels unchanged: the payload and attachment that the RPC
    client's constructor hands to [z_get] decode, in the constructor of
    [RpcInfo] on the serving side, to the message the client was given. *)
Theorem request_round_trip
  (backend : Backend) (session_base : SessionImpl) (expr : string)
  (message : Message) (timeout : Z) (t : list Event) :
  keyexpr_is_valid backend (c_str expr) = true ->
  exists data att ms replies,
    RpcClientImpl_ctor backend session_base expr message timeout (mk_state tt t) =
      (Ok (mk_RpcClientImpl session_base replies),
       mk_state tt
         (t ++ [EvGet (session session_base) (Some (c_str expr)) "" data att ms]))
    /\ forall (T : Type) (id : nat) (k : string) (s : State T),
        RpcInfo_ctor (mk_query id k data att) s =
        (Ok (mk_RpcInfo (c_str k) message (mk_owned_query (mk_query id k data att))),
         mk_state (this s) (trace s ++ [EvQueryClone (mk_query id k data att)])).
Proof.
  intros Hvalid.
  unfold RpcClientImpl_ctor, z_keyexpr. rewrite Hvalid. cbn [z_check negb].
  do 4 eexists. split; [reflexivity|].
  intros T id k s. rewrite RpcInfo_ctor_eval.
  fold (attributes_map (attributes message)).
  fold (attributes_attachment (attributes message)).
  rewrite attributes_attachment_singleton.
  cbn. now rewrite lookup_singleton_eq, Message_eta.
Qed.

Lemma request_round_trip_witness :
  keyexpr_is_valid strict_backend (c_str "svc") = true
  /\ exists data att ms replies,
      RpcClientImpl_ctor strict_backend a_session "svc" (mkMessage "abc" "m") 1
        (mk_state tt []) =
        (Ok (mk_RpcClientImpl a_session replies),
         mk_state tt
           ([] ++ [EvGet (session a_session) (Some (c_str "svc")) "" data att ms]))
      /\ forall (T : Type) (id : nat) (k : string) (s : State T),
          RpcInfo_ctor (mk_query id k data att) s =
          (Ok (mk_RpcInfo (c_str k) (mkMessage "abc" "m")
                 (mk_owned_query (mk_query id k data att))),
           mk_state (this s) (trace s ++ [EvQueryClone (mk_query id k data att)])).
Proof.
  split; [reflexivity|].
  apply (request_round_trip strict_backend a_session "svc" (mkMessage "abc" "m") 1 []).
  reflexivity.
Defined.

(** The reply travels unchanged: when the callback answers [reply], the
    server makes one call of [z_query_reply], and [operator()] of an RPC
    client whose channel yields the sample carrying that payload and
    attachment returns [reply], under the sample's key expression. *)
Theorem reply_round_trip
  (backend : Backend) (self : RpcServerImpl) (ptr : RpcInfo) (t : list Event)
  (reply : Message) :
  srv_callback self t (keyexpr ptr) (rpc_message ptr) = Ok (Some reply) ->
  exists new q kx data att,
    snd (RpcServerImpl_process backend ptr (mk_state self t)) =
      mk_state self (t ++ new)
    /\ replies new = [(q, kx, data, att)]
    /\ forall (client : SessionImpl) (k : string) (later : list z_reply_data)
              (t' : list Event) (n : nat),
        fst (RpcClientImpl_call (S n)
               (mk_state
                  (mk_RpcClientImpl client
                     (reply_sample (mk_sample k (Some data) att) :: later))
                  t')) =
        Ok (Some (c_str k, reply)).
Proof.
  intros Hcb. rewrite RpcServerImpl_process_eval, Hcb.
  do 5 eexists. split; [reflexivity|]. split; [reflexivity|].
  intros client k later t' n. rewrite RpcClientImpl_call_eval.
  cbn [channel fst]. unfold decoded.
  cbn [sample_keyexpr sample_payload sample_attachment extract].
  now rewrite attributes_attachment_get, Message_eta.
Qed.

Lemma reply_round_trip_witness :
  let self := a_server reversing_callback [] false in
  srv_callback self [] (keyexpr an_rpc_info) (rpc_message an_rpc_info)
    = Ok (Some (mkMessage "cba" "m"))
  /\ exists new q kx data att,
      snd (RpcServerImpl_process accepting_backend an_rpc_info (mk_state self [])) =
        mk_state self ([] ++ new)
      /\ replies new = [(q, kx, data, att)]
      /\ forall (client : SessionImpl) (k : string) (later : list z_reply_data)
                (t' : list Event) (n : nat),
          fst (RpcClientImpl_call (S n)
                 (mk_state
                    (mk_RpcClientImpl client
                       (reply_sample (mk_sample k (Some data) att) :: later))
                    t')) =
          Ok (Some (c_str k, mkMessage "cba" "m")).
Proof.
  intros self. split; [reflexivity|].
  apply (reply_round_trip accepting_backend self an_rpc_info []
           (mkMessage "cba" "m")).
  reflexivity.
Defined.

(** ** Further properties: the RPC client *)

(** A string that is not a key expression makes the client's constructor
    raise before it has called the backend: no query is issued and no client
    exists. *)
Theorem client_rejects_invalid_key_expression
  (backend : Backend) (session_base : SessionImpl) (expr : string)
  (message : Message) (timeout : Z) (t : list Event) :
  keyexpr_is_valid backend (c_str expr) = false ->
  RpcClientImpl_ctor backend session_base expr message timeout (mk_state tt t) =
  (Throw (runtime_error "Not a valid key expression"), mk_state tt t).
Proof.
  intros Hinvalid. unfold RpcClientImpl_ctor, z_keyexpr.
  now rewrite Hinvalid.
Qed.

Lemma client_rejects_invalid_key_expression_witness :
  keyexpr_is_valid strict_backend (c_str "") = false
  /\ RpcClientImpl_ctor strict_backend a_session "" (mkMessage "abc" "m") 1
       (mk_state tt []) =
     (Throw (runtime_error "Not a valid key expression"), mk_state tt []).
Proof.
  split; [reflexivity|].
  apply (client_rejects_invalid_key_expression strict_backend a_session ""
           (mkMessage "abc" "m") 1 []).
  reflexivity.
Defined.

(** With a key expression and a timeout of [timeout] seconds that fits the
    option field, the constructor issues exactly one [z_get]: empty
    parameters, the message's payload, its attributes as attachment and the
    timeout in milliseconds.  Whatever the backend answers, construction
    succeeds, and the channel holds what the backend will deliver. *)
Theorem client_issues_one_get
  (backend : Backend) (session_base : SessionImpl) (expr : string)
  (message : Message) (timeout : Z) (t : list Event) :
  keyexpr_is_valid backend (c_str expr) = true ->
  (0 <= timeout * 1000 < 2 ^ 64)%Z ->
  let k := Some (c_str expr) in
  let att := attributes_attachment (attributes message) in
  RpcClientImpl_ctor backend session_base expr message timeout (mk_state tt t) =
  (Ok (mk_RpcClientImpl session_base
         (get_answer backend t (session session_base) k (Some (payload message))
            att (timeout * 1000)%Z)),
   mk_state tt
     (t ++ [EvGet (session session_base) k "" (Some (payload message)) att
              (timeout * 1000)%Z])).
Proof.
  intros Hvalid Hrange k att. unfold RpcClientImpl_ctor, z_keyexpr.
  rewrite Hvalid. cbn [z_check negb].
  rewrite (Z.mod_small _ _ Hrange). reflexivity.
Qed.

Lemma client_issues_one_get_witness :
  keyexpr_is_valid strict_backend (c_str "svc") = true
  /\ (0 <= 1 * 1000 < 2 ^ 64)%Z
  /\ RpcClientImpl_ctor strict_backend a_session "svc" (mkMessage "abc" "m") 1
       (mk_state tt []) =
     (Ok (mk_RpcClientImpl a_session [reply_error "Timeout"]),
      mk_state tt
        [EvGet (session a_session) (Some "svc") "" (Some "abc")
           (attributes_attachment "m") 1000]).
Proof.
  split; [reflexivity|]. split; [lia|].
  apply (client_issues_one_get strict_backend a_session "svc"
           (mkMessage "abc" "m") 1 []); [reflexivity | lia].
Defined.

(** [operator()] releases the reply it received exactly once when it returns,
    also when that is the null reply of the closed channel; when it raises on
    an error reply it has released nothing, the error reply included. *)
Theorem client_releases_reply_unless_it_raises
  (self : RpcClientImpl) (t : list Event) (n : nat) :
  exists new,
    trace (snd (RpcClientImpl_call (S n) (mk_state self t))) = t ++ new
    /\ reply_drops new =
       match channel self with
       | [] => [None]
       | reply_sample sample :: _ => [Some (reply_sample sample)]
       | reply_error _ :: _ => []
       end.
Proof.
  rewrite RpcClientImpl_call_eval.
  destruct (channel self) as [|[sample|v] rest]; eexists; split; reflexivity.
Qed.

(** ** Further properties: the RPC server *)

(** An attachment without the entry "attributes" is not a missing
    attachment: the query is cloned and queued, with empty attributes. *)
Theorem query_without_attributes_entry_is_accepted
  (self : RpcServerImpl) (query : z_query_t) (m : gmap string string)
  (t : list Event) :
  query_attachment query = Some m ->
  m !! "attributes" = None ->
  RpcServerImpl_handler query (mk_state self t) =
  (Ok tt,
   mk_state
     (set_srv_fifo
        (Fifo.push
           (mk_RpcInfo (c_str (query_keyexpr query))
              (mkMessage (extract (query_value query)) "")
              (mk_owned_query query))
           (srv_fifo self))
        self)
     (t ++ [EvQueryClone query])).
Proof.
  intros Hatt Hkey. rewrite RpcServerImpl_handler_eval, Hatt. cbn.
  now rewrite Hkey.
Qed.

Lemma query_without_attributes_entry_is_accepted_witness :
  let self := a_server silent_callback [] false in
  let query := mk_query 9 "svc" None (Some {[ "other" := "x" ]}) in
  query_attachment query = Some {[ "other" := "x" ]}
  /\ ({[ "other" := "x" ]} : gmap string string) !! "attributes" = None
  /\ RpcServerImpl_handler query (mk_state self []) =
     (Ok tt,
      mk_state
        (a_server silent_callback
           [mk_RpcInfo "svc" (mkMessage "" "") (mk_owned_query query)] false)
        [EvQueryClone query]).
Proof.
  intros self query. split; [reflexivity|]. split; [reflexivity|].
  apply (query_without_attributes_entry_is_accepted self query
           {[ "other" := "x" ]} []); reflexivity.
Defined.

Lemma clones_of_clone_events queries :
  clones (map EvQueryClone queries) = map mk_owned_query queries
  /\ drops (map EvQueryClone queries) = []
  /\ rpc_callbacks (map EvQueryClone queries) = [].
Proof.
  induction queries as [|q rest (IHc & IHd & IHr)]; [repeat split|].
  cbn. unfold clones, drops, rpc_callbacks in *. cbn.
  rewrite IHc, IHd, IHr. repeat split.
Qed.

(** A worker clones nothing. *)
Lemma RpcServerImpl_worker_no_clone backend fuel s r s' :
  RpcServerImpl_worker backend fuel s = (r, s') ->
  clones (trace s') = clones (trace s).
Proof.
  unfold RpcServerImpl_worker. revert s.
  induction fuel as [|fuel IH]; intros [self t]; [now intros [= <- <-]|].
  rewrite loop_S, RpcServerImpl_worker_body_eval. unfold Fifo.pull.
  destruct (Fifo.closed (srv_fifo self)); [now intros [= <- <-]|].
  destruct (Fifo.queue (srv_fifo self)) as [|p rest]; [now intros [= <- <-]|].
  destruct (RpcServerImpl_process_no_clone backend
              (set_srv_fifo (Fifo.mk rest false) self) p t)
    as (r0 & new & Hrun & Hclones).
  rewrite Hrun. destruct r0 as [[]|e].
  - intros Hloop. apply IH in Hloop. rewrite Hloop. cbn.
    now rewrite clones_app, Hclones, app_nil_r.
  - intros [= <- <-]. cbn. now rewrite clones_app, Hclones, app_nil_r.
Qed.

(** Deliveries of queries that all carry an attachment: each is cloned and
    queued, in order, and the closure returns every time. *)
Lemma deliver_queries_accepted queries self t :
  forallb (fun query => z_check (query_attachment query)) queries = true ->
  deliver_queries queries (mk_state self t) =
  (Ok tt,
   mk_state
     (set_srv_fifo
        (Fifo.mk (Fifo.queue (srv_fifo self) ++ map RpcInfo_of queries)
           (Fifo.closed (srv_fifo self)))
        self)
     (t ++ map EvQueryClone queries)).
Proof.
  revert self t.
  induction queries as [|q rest IH]; intros self t Hall.
  - cbn. rewrite !app_nil_r. destruct self as [? ? [] ? ?]; reflexivity.
  - cbn [forallb] in Hall. apply andb_prop in Hall as [Hq Hrest].
    destruct (query_attachment q) as [m|] eqn:Hatt; [|discriminate].
    cbn [deliver_queries]. unfold bind, RpcServerImpl__handler.
    rewrite RpcServerImpl_handler_eval, Hatt. cbn [this trace].
    rewrite (IH _ _ Hrest). cbn [map]. unfold RpcInfo_of at 2. rewrite Hatt.
    cbn. rewrite <- !app_assoc. reflexivity.
Qed.

(** Queries that all carry an attachment arrive at a server whose queue is
    open and empty, and then a worker runs over the queue, with a callback
    that never raises.  The callback is called once for each query, in the
    order of arrival, with the query's key expression and decoded message;
    each query is cloned once and its clone released once; the queue ends
    empty and the worker waits. *)
Theorem worker_serves_the_delivered_queries
  (backend : Backend) (queries : list z_query_t) (fuel : nat)
  (self : RpcServerImpl) (t : list Event) :
  srv_fifo self = Fifo.mk [] false ->
  forallb (fun query => z_check (query_attachment query)) queries = true ->
  (forall h k m, exists r, srv_callback self h k m = Ok r) ->
  (length queries < fuel)%nat ->
  exists s1 new,
    deliver_queries queries (mk_state self t) = (Ok tt, s1)
    /\ RpcServerImpl_worker backend fuel s1 =
       (Ok (Some waiting), mk_state self (t ++ new))
    /\ rpc_callbacks new =
       map (fun q => (keyexpr (RpcInfo_of q), rpc_message (RpcInfo_of q))) queries
    /\ clones new = map mk_owned_query queries
    /\ drops new = map mk_owned_query queries.
Proof.
  intros Hf Hall Hcb Hlen.
  rewrite (deliver_queries_accepted _ _ _ Hall), Hf.
  cbn [Fifo.queue Fifo.closed app].
  destruct (RpcServerImpl_worker_run backend (map RpcInfo_of queries) fuel
              (set_srv_fifo (Fifo.mk (map RpcInfo_of queries) false) self)
              (t ++ map EvQueryClone queries))
    as (new & Hrun & Hdrops & Hcalls).
  { reflexivity. }
  { exact Hcb. }
  { rewrite length_map. lia. }
  pose proof (RpcServerImpl_worker_no_clone _ _ _ _ _ Hrun) as Hnc.
  cbn [trace] in Hnc. rewrite clones_app in Hnc.
  assert (Hnew : clones new = []).
  { eapply app_inv_head. rewrite app_nil_r. exact Hnc. }
  destruct (clones_of_clone_events queries) as (Hc & Hd & Hr).
  do 2 eexists. split; [reflexivity|].
  rewrite Hrun, set_srv_fifo_twice, <- Hf, set_srv_fifo_same, <- app_assoc.
  split; [reflexivity|].
  rewrite rpc_callbacks_app, clones_app, drops_app, Hc, Hd, Hr, Hnew, Hdrops,
    Hcalls, app_nil_r, !map_map.
  repeat split.
Qed.

Lemma worker_serves_the_delivered_queries_witness :
  let self := a_server silent_callback [] false in
  let queries := [a_query; mk_query 9 "svc/x" None (Some ∅)] in
  srv_fifo self = Fifo.mk [] false
  /\ forallb (fun query => z_check (query_attachment query)) queries = true
  /\ (forall h k m, exists r, srv_callback self h k m = Ok r)
  /\ (length queries < 3)%nat
  /\ exists s1 new,
      deliver_queries queries (mk_state self []) = (Ok tt, s1)
      /\ RpcServerImpl_worker accepting_backend 3 s1 =
         (Ok (Some waiting), mk_state self ([] ++ new))
      /\ rpc_callbacks new =
         map (fun q => (keyexpr (RpcInfo_of q), rpc_message (RpcInfo_of q))) queries
      /\ clones new = map mk_owned_query queries
      /\ drops new = map mk_owned_query queries.
Proof.
  intros self queries.
  split; [reflexivity|]. split; [reflexivity|].
  split; [intros; eexists; reflexivity|]. split; [cbn; lia|].
  apply (worker_serves_the_delivered_queries accepting_backend queries 3 self []);
    [reflexivity | reflexivity | intros; eexists; reflexivity | cbn; lia].
Defined.

Lemma rpc_round_witness :
  let self := a_server reversing_callback [] false in
  let m := attributes_map "m" in
  let reply := mkMessage "cba" "m" in
  srv_fifo self = Fifo.mk [] false
  /\ query_attachment a_query = Some m
  /\ srv_callback self ([] ++ [EvQueryClone a_query]) (c_str (query_keyexpr a_query))
       (mkMessage (extract (query_value a_query)) (extract (m !! "attributes")))
     = Ok (Some reply)
  /\ exists s1,
      RpcServerImpl_handler a_query (mk_state self []) = (Ok tt, s1)
      /\ RpcServerImpl_worker accepting_backend 2 s1 =
         (Ok (Some waiting),
          mk_state self
            ([] ++ [EvQueryClone a_query;
                    EvRpcCallback (c_str (query_keyexpr a_query))
                      (mkMessage (extract (query_value a_query))
                         (extract (m !! "attributes")));
                    EvQueryReply (mk_owned_query a_query)
                      (z_keyexpr accepting_backend (c_str (query_keyexpr a_query)))
                      (payload reply) (attributes_attachment (attributes reply));
                    EvQueryDrop (mk_owned_query a_query)])).
Proof.
  intros self m reply.
  split; [reflexivity|]. split; [reflexivity|]. split; [reflexivity|].
  apply (rpc_round accepting_backend self a_query m [] reply); reflexivity.
Defined.

(** ** Further properties: the subscriber *)

(** What a series of deliveries leaves behind: every sample is decoded and
    queued, in order; nothing is called. *)
Lemma deliver_samples_eval samples self t :
  deliver_samples samples (mk_state self t) =
  mk_state
    (set_sub_fifo
       (Fifo.mk (Fifo.queue (sub_fifo self) ++ map SubInfo_ctor samples)
          (Fifo.closed (sub_fifo self)))
       self)
    t.
Proof.
  unfold deliver_samples. revert self.
  induction samples as [|x rest IH]; intros self; cbn [foldl].
  - cbn. rewrite app_nil_r. destruct self as [? ? ? [] ? ?]; reflexivity.
  - unfold SubscriberImpl_handler at 2, modify_this. cbn [snd this trace].
    rewrite IH. cbn. now rewrite <- app_assoc.
Qed.

(** Samples arrive and then a worker runs over the queue, with a callback
    that never raises.  The callback is called once for every sample, in the
    order of arrival, with the sample's key, the topic subscribed to, the
    sample's payload and the "attributes" entry of its attachment; no sample
    is refused, whatever its attachment. *)
Theorem worker_calls_back_every_sample
  (samples : list z_sample_t) (fuel : nat) (self : SubscriberImpl)
  (t : list Event) :
  sub_fifo self = Fifo.mk [] false ->
  (forall h src dst m, sub_callback self h src dst m = Ok tt) ->
  (length samples < fuel)%nat ->
  SubscriberImpl_worker fuel (deliver_samples samples (mk_state self t)) =
  (Ok (Some waiting),
   mk_state self
     (t ++ map (fun x =>
                  EvSubscriberCallback (sample_keyexpr x) (listening_topic self)
                    (mkMessage (extract (sample_payload x))
                       (extract (z_attachment_get (sample_attachment x)
                                   "attributes"))))
             samples)).
Proof.
  intros Hf Hcb Hlen. rewrite deliver_samples_eval, Hf.
  cbn [Fifo.queue Fifo.closed app].
  rewrite (SubscriberImpl_worker_run (map SubInfo_ctor samples));
    [| reflexivity | exact Hcb | rewrite length_map; lia].
  rewrite map_map. clear Hcb. revert Hf.
  destruct self as [sess h topic f pool cb]. cbn. now intros ->.
Qed.

Lemma worker_calls_back_every_sample_witness :
  let self := a_subscriber quiet_callback [] false in
  let samples :=
    [mk_sample "a/b" (Some "x") (attributes_attachment "m");
     mk_sample "a/c" None None] in
  sub_fifo self = Fifo.mk [] false
  /\ (forall h src dst m, sub_callback self h src dst m = Ok tt)
  /\ (length samples < 3)%nat
  /\ SubscriberImpl_worker 3 (deliver_samples samples (mk_state self [])) =
     (Ok (Some waiting),
      mk_state self
        [EvSubscriberCallback "a/b" "a/*" (mkMessage "x" "m");
         EvSubscriberCallback "a/c" "a/*" (mkMessage "" "")]).
Proof.
  intros self samples.
  split; [reflexivity|]. split; [reflexivity|]. split; [cbn; lia|].
  apply (worker_calls_back_every_sample samples 3 self []);
    [reflexivity | reflexivity | cbn; lia].
Defined.

(** Once the queue of a subscriber is shut down, as its destructor does
    first, samples that the backend still delivers are queued but reach no
    callback: a worker that pulls returns at once. *)
Theorem samples_after_shutdown_are_dropped
  (samples : list z_sample_t) (self : SubscriberImpl) (t : list Event) (n : nat) :
  Fifo.closed (sub_fifo self) = true ->
  let s := deliver_samples samples (mk_state self t) in
  Fifo.queue (sub_fifo (this s)) =
    Fifo.queue (sub_fifo self) ++ map SubInfo_ctor samples
  /\ SubscriberImpl_worker (S n) s = (Ok (Some returned), mk_state (this s) t).
Proof.
  intros Hc s. subst s. rewrite deliver_samples_eval. cbn [this].
  split; [reflexivity|].
  apply SubscriberImpl_worker_returns_when_closed. cbn. exact Hc.
Qed.

Lemma samples_after_shutdown_are_dropped_witness :
  let self :=
    this (snd (SubscriberImpl_dtor
                 (mk_state (a_subscriber quiet_callback [a_sub_info] false) []))) in
  let samples := [mk_sample "a/b" (Some "y") None] in
  let s := deliver_samples samples (mk_state self []) in
  Fifo.closed (sub_fifo self) = true
  /\ Fifo.queue (sub_fifo (this s)) =
       Fifo.queue (sub_fifo self) ++ map SubInfo_ctor samples
  /\ SubscriberImpl_worker 1 s = (Ok (Some returned), mk_state (this s) []).
Proof.
  intros self samples s. split; [reflexivity|].
  apply (samples_after_shutdown_are_dropped samples self [] 0). reflexivity.
Defined.

(** ** Further properties: publisher, topics and session *)

Lemma PublisherImpl_call_eval
  (backend : Backend) (self : PublisherImpl) (message : Message) (t : list Event) :
  let att := attributes_attachment (attributes message) in
  PublisherImpl_call backend message (mk_state self t) =
  (if (publisher_put_answer backend t (pub_handle self) (payload message) att =? 0)%Z
   then Ok tt else Throw (runtime_error "Cannot publish"),
   mk_state self
     (t ++ [EvPublisherPut (pub_handle self) (payload message) att;
            EvBytesMapDrop (attributes_map (attributes message))])).
Proof.
  intros att.
  unfold PublisherImpl_call, bind, get_this, emit, outside, throw.
  cbn. fold (pack (attributes message)).
  fold (attributes_map (attributes message)).
  fold (attributes_attachment (attributes message)). fold att.
  destruct (publisher_put_answer backend t (pub_handle self) (payload message) att
            =? 0)%Z; cbn; rewrite <- app_assoc; reflexivity.
Qed.

(** Sends that the backend accepts leave the publisher as it is and make one
    put each, in order. *)
Lemma send_all_accepted
  (backend : Backend) (messages : list Message) (self : PublisherImpl)
  (t : list Event) :
  (forall h hd data att, publisher_put_answer backend h hd data att = 0%Z) ->
  exists new,
    send_all backend messages (mk_state self t) = (Ok tt, mk_state self (t ++ new))
    /\ puts new =
       map (fun m => (payload m, attributes_attachment (attributes m))) messages.
Proof.
  intros Hacc. revert t.
  induction messages as [|m rest IH]; intros t; cbn [send_all].
  - exists []. now rewrite app_nil_r.
  - unfold bind. rewrite PublisherImpl_call_eval, Hacc. cbn [Z.eqb].
    destruct (IH (t ++ [EvPublisherPut (pub_handle self) (payload m)
                          (attributes_attachment (attributes m));
                        EvBytesMapDrop (attributes_map (attributes m))]))
      as (new & Hrun & Hputs).
    rewrite Hrun. eexists. rewrite <- app_assoc. split; [reflexivity|].
    cbn. unfold puts in *. cbn. now rewrite Hputs.
Qed.

(** From publisher to subscriber.  A user sends messages one after the other
    on a publisher whose backend accepts them; the backend delivers, under
    some key, samples that carry what was put; a worker of a subscriber with
    a callback that never raises runs over them.  The callback is called
    with exactly the messages sent, payload and attributes, once each and in
    the order sent. *)
Theorem published_messages_reach_the_callback
  (backend : Backend) (messages : list Message) (pub : PublisherImpl)
  (sub : SubscriberImpl) (fuel : nat) (t : list Event) :
  (forall h hd data att, publisher_put_answer backend h hd data att = 0%Z) ->
  sub_fifo sub = Fifo.mk [] false ->
  (forall h src dst m, sub_callback sub h src dst m = Ok tt) ->
  (length messages < fuel)%nat ->
  exists new,
    send_all backend messages (mk_state pub t) = (Ok tt, mk_state pub (t ++ new))
    /\ forall (k : string) (t' : list Event),
        SubscriberImpl_worker fuel
          (deliver_samples (map (sample_of_put k) (puts new)) (mk_state sub t')) =
        (Ok (Some waiting),
         mk_state sub
           (t' ++ map (EvSubscriberCallback k (listening_topic sub)) messages)).
Proof.
  intros Hacc Hf Hcb Hlen.
  destruct (send_all_accepted backend messages pub t Hacc) as (new & Hrun & Hputs).
  exists new. split; [exact Hrun|]. intros k t'.
  rewrite Hputs, deliver_samples_eval, Hf. cbn [Fifo.queue Fifo.closed app].
  rewrite !map_map.
  rewrite (map_ext _ (mk_SubInfo k)) by (intros m; apply SubInfo_of_put).
  rewrite (SubscriberImpl_worker_run (map (mk_SubInfo k) messages));
    [| reflexivity | exact Hcb | rewrite length_map; lia].
  rewrite map_map. clear Hcb. revert Hf.
  destruct sub as [sess h topic f pool cb]. cbn. now intros ->.
Qed.

Lemma published_messages_reach_the_callback_witness :
  let pub := mk_PublisherImpl a_session "a/b" (Some 1%nat) in
  let sub := a_subscriber quiet_callback [] false in
  let messages := [mkMessage "x" "m"; mkMessage "y" ""] in
  (forall h hd data att, publisher_put_answer accepting_backend h hd data att = 0%Z)
  /\ sub_fifo sub = Fifo.mk [] false
  /\ (forall h src dst m, sub_callback sub h src dst m = Ok tt)
  /\ (length messages < 3)%nat
  /\ exists new,
      send_all accepting_backend messages (mk_state pub []) =
        (Ok tt, mk_state pub ([] ++ new))
      /\ forall (k : string) (t' : list Event),
          SubscriberImpl_worker 3
            (deliver_samples (map (sample_of_put k) (puts new)) (mk_state sub t')) =
          (Ok (Some waiting),
           mk_state sub
             (t' ++ map (EvSubscriberCallback k (listening_topic sub)) messages)).
Proof.
  intros pub sub messages.
  split; [reflexivity|]. split; [reflexivity|]. split; [reflexivity|].
  split; [cbn; lia|].
  apply (published_messages_reach_the_callback accepting_backend messages pub sub
           3 []); [reflexivity | reflexivity | reflexivity | cbn; lia].
Defined.

Lemma c_str_app_nul (pre post : string) :
  c_str (pre +:+ String Ascii.zero post) = c_str pre.
Proof.
  induction pre as [|c rest IH]; [reflexivity|].
  change (String c rest +:+ String Ascii.zero post)
    with (String c (rest +:+ String Ascii.zero post)).
  cbn [c_str]. destruct (Ascii.eqb c Ascii.zero); [reflexivity|]. now rewrite IH.
Qed.

(** A topic is handed to the backend as a C string: what follows its first
    NUL byte is not seen.  The publisher declared on [pre], NUL, [post] makes
    the same declaration and holds the same handle as the one declared on
    [pre], and the RPC client constructed on one is the client constructed on
    the other. *)
Theorem topic_is_cut_at_first_nul
  (backend : Backend) (session_base : SessionImpl) (pre post : string)
  (message : Message) (timeout : Z) (t : list Event) :
  let topic := pre +:+ String Ascii.zero post in
  snd (PublisherImpl_ctor backend session_base topic (mk_state tt t)) =
    snd (PublisherImpl_ctor backend session_base pre (mk_state tt t))
  /\ match fst (PublisherImpl_ctor backend session_base topic (mk_state tt t)),
          fst (PublisherImpl_ctor backend session_base pre (mk_state tt t)) with
     | Ok p1, Ok p2 => pub_handle p1 = pub_handle p2
     | Throw e1, Throw e2 => e1 = e2
     | _, _ => False
     end
  /\ RpcClientImpl_ctor backend session_base topic message timeout (mk_state tt t) =
     RpcClientImpl_ctor backend session_base pre message timeout (mk_state tt t).
Proof.
  intros topic. subst topic.
  unfold PublisherImpl_ctor, RpcClientImpl_ctor, bind, outside, throw, ret.
  rewrite c_str_app_nul. cbn.
  destruct (declare_publisher_answer backend t (session session_base)
              (z_keyexpr backend (c_str pre))); cbn; repeat split.
Qed.

(** The session is opened with the default configuration: the start document
    is stored in the object and plays no part in what is asked of the backend
    or in the session obtained. *)
Theorem start_doc_is_not_used_to_open
  (backend : Backend) (doc1 doc2 : string) (t : list Event) :
  snd (SessionImpl_ctor backend doc1 (mk_state tt t)) =
    snd (SessionImpl_ctor backend doc2 (mk_state tt t))
  /\ match fst (SessionImpl_ctor backend doc1 (mk_state tt t)),
          fst (SessionImpl_ctor backend doc2 (mk_state tt t)) with
     | Ok s1, Ok s2 =>
         session s1 = session s2 /\ start_doc s1 = doc1 /\ start_doc s2 = doc2
     | Throw e1, Throw e2 => e1 = e2
     | _, _ => False
     end.
Proof.
  unfold SessionImpl_ctor, inst, bind, outside, expect, ret, throw. cbn.
  destruct (open_answer backend t); cbn; repeat split.
Qed.

(** ** Further properties: exceptions and shutdown *)

(** The worker of the RPC server has no handler around the user callback
    either.  When the callback raises on the event at the head of the queue,
    the exception leaves [worker], no reply has been sent for the event, and
    the events behind it stay queued, with no call made for them. *)
Theorem rpc_callback_exception_escapes
  (backend : Backend) (self : RpcServerImpl) (t : list Event) (p : RpcInfo)
  (rest : list RpcInfo) (e : exception) (n : nat) :
  srv_fifo self = Fifo.mk (p :: rest) false ->
  srv_callback self t (keyexpr p) (rpc_message p) = Throw e ->
  exists new,
    RpcServerImpl_worker backend (S n) (mk_state self t) =
      (Throw e, mk_state (set_srv_fifo (Fifo.mk rest false) self) (t ++ new))
    /\ rpc_callbacks new = [(keyexpr p, rpc_message p)]
    /\ replies new = [].
Proof.
  intros Hf Hcb. unfold RpcServerImpl_worker.
  rewrite loop_S, RpcServerImpl_worker_body_eval. unfold Fifo.pull.
  rewrite Hf. cbn -[RpcServerImpl_process].
  rewrite RpcServerImpl_process_eval. cbn. rewrite Hcb.
  eexists. split; [reflexivity|]. split; reflexivity.
Qed.

Lemma rpc_callback_exception_escapes_witness :
  let cb : RpcServerCallback := fun _ _ _ => Throw (user_exception "no") in
  let self := a_server cb [an_rpc_info; an_rpc_info] false in
  srv_fifo self = Fifo.mk [an_rpc_info; an_rpc_info] false
  /\ srv_callback self [] (keyexpr an_rpc_info) (rpc_message an_rpc_info)
     = Throw (user_exception "no")
  /\ exists new,
      RpcServerImpl_worker accepting_backend 3 (mk_state self []) =
        (Throw (user_exception "no"),
         mk_state (set_srv_fifo (Fifo.mk [an_rpc_info] false) self) ([] ++ new))
      /\ rpc_callbacks new = [(keyexpr an_rpc_info, rpc_message an_rpc_info)]
      /\ replies new = [].
Proof.
  intros cb self. split; [reflexivity|]. split; [reflexivity|].
  apply (rpc_callback_exception_escapes accepting_backend self [] an_rpc_info
           [an_rpc_info] (user_exception "no") 2); reflexivity.
Defined.



